(** * Wiki-Scientist-Robot: a shallow embedding of [wiki_robot.py]

    The development follows the layout of the Python module:

    - [PyStr]     the handful of [str] methods the robot relies on
                  ([split], [lower], [in], [startswith], [endswith], slices);
    - [Dates]     [datetime.date] and [strptime] for the format [%Y-%m-%d];
    - [Scientist] the helper class [WikiScientist];
    - [Browser]   the calls of [RPA.Browser.Selenium] the robot makes, as
                  its docstrings and [test.py] describe them;
    - [Robot]     [WikiRobot] / [WikiScientistRobot] over that browser, with
                  exceptions and state threaded explicitly;
    - [Trace]     the vocabulary of the statements about the robot;
    - [Demo]      a web of three pages to run the robot on;
    - [Html]      [utils/html_template.py], with [str] of dates and integers;
    - [Dialog]    [utils/dialog_builder.py], as calls on the assistant;
    - [Calendar], [Reads]  more vocabulary; [Main]  the program of [main.py].

    The properties follow the definitions, in the same order.

    Characters are code points below 256 (Rocq's [ascii]); on that range the
    only decimal digits are [0]..[9] and [str.lower] is the map [lower_char]
    below.  Python integers are unbounded, hence [Z]. *)

From Stdlib Require Import ZArith List String Ascii Bool Lia.
From Stdlib Require Import DecimalString.
Import ListNotations.

Open Scope string_scope.
Open Scope Z_scope.

(* ------------------------------------------------------------------ *)
(** ** Exceptions *)

Inductive exn : Type :=
| AssertionError
| IndexError
| ValueError
| AttributeError
| RuntimeError (msg : string)
| ElementNotFound (locator : string)
| NoSuchWindowException.

Inductive result (A : Type) : Type :=
| Ok (a : A)
| Raise (e : exn).

Arguments Ok {A} a.
Arguments Raise {A} e.

(* ------------------------------------------------------------------ *)
(** ** The [str] methods used by the robot *)

Module PyStr.

Definition code (c : ascii) : Z := Z.of_nat (nat_of_ascii c).

(** [str.lower] on one code point below 256: the capital letters are
    [A]..[Z] and, in the Latin-1 block, U+00C0..U+00DE without the
    multiplication sign U+00D7; each is 32 below its small letter. *)
Definition is_upper (c : ascii) : bool :=
  ((65 <=? code c) && (code c <=? 90))
  || ((192 <=? code c) && (code c <=? 222) && negb (code c =? 215)).

Definition lower_char (c : ascii) : ascii :=
  if is_upper c then ascii_of_nat (nat_of_ascii c + 32) else c.

Fixpoint lower (s : string) : string :=
  match s with
  | EmptyString => EmptyString
  | String c s' => String (lower_char c) (lower s')
  end.

(** [s.split(sep)] for a one-character separator: never the empty list,
    [len(result) = s.count(sep) + 1]. *)
Fixpoint split (sep : ascii) (s : string) : list string :=
  match s with
  | EmptyString => [EmptyString]
  | String c s' =>
      if Ascii.eqb c sep then EmptyString :: split sep s'
      else match split sep s' with
           | [] => [String c EmptyString]
           | h :: t => String c h :: t
           end
  end.

(** [l[i]] for a non-negative index; out of range raises [IndexError]. *)
Definition index {A : Type} (l : list A) (i : nat) : result A :=
  match nth_error l i with
  | Some x => Ok x
  | None => Raise IndexError
  end.

(** [c in s] for a character. *)
Fixpoint has_char (c : ascii) (s : string) : bool :=
  match s with
  | EmptyString => false
  | String c' s' => Ascii.eqb c' c || has_char c s'
  end.

(** [needle in hay]. *)
Fixpoint contains (needle hay : string) : bool :=
  prefix needle hay
  || match hay with
     | EmptyString => false
     | String _ hay' => contains needle hay'
     end.

(** [s.startswith(c)] and [s.endswith(c)] for one character. *)
Definition startswith (c : ascii) (s : string) : bool :=
  match s with
  | String c' _ => Ascii.eqb c' c
  | EmptyString => false
  end.

Fixpoint endswith (c : ascii) (s : string) : bool :=
  match s with
  | EmptyString => false
  | String c' EmptyString => Ascii.eqb c' c
  | String _ s' => endswith c s'
  end.

(** The slices [s[1:]] and [s[:-1]]. *)
Definition drop_first (s : string) : string :=
  match s with
  | EmptyString => EmptyString
  | String _ s' => s'
  end.

Fixpoint drop_last (s : string) : string :=
  match s with
  | EmptyString => EmptyString
  | String _ EmptyString => EmptyString
  | String c s' => String c (drop_last s')
  end.

End PyStr.

(* ------------------------------------------------------------------ *)
(** ** [WikiRobot.get_domain] *)

(** [return url.split(".")[1].lower()] *)
Definition get_domain (url : string) : result string :=
  match PyStr.index (PyStr.split "." url) 1 with
  | Ok part => Ok (PyStr.lower part)
  | Raise e => Raise e
  end.

(* ------------------------------------------------------------------ *)
(** ** [datetime.date] and [datetime.strptime(_, "%Y-%m-%d").date()] *)

Module Dates.

Record date : Type := mkdate { year : Z; month : Z; day : Z }.

(** [==] on dates compares the three components. *)
Definition date_eqb (a b : date) : bool :=
  (year a =? year b) && (month a =? month b) && (day a =? day b).

Definition is_leap (y : Z) : bool :=
  (y mod 4 =? 0) && (negb (y mod 100 =? 0) || (y mod 400 =? 0)).

Definition days_in_month (y m : Z) : Z :=
  if m =? 2 then (if is_leap y then 29 else 28)
  else if (m =? 4) || (m =? 6) || (m =? 9) || (m =? 11) then 30
  else 31.

(** The constructor [datetime.date(y, m, d)]: [MINYEAR = 1],
    [MAXYEAR = 9999]; anything outside raises [ValueError]. *)
Definition make_date (y m d : Z) : result date :=
  if (1 <=? y) && (y <=? 9999) && (1 <=? m) && (m <=? 12)
     && (1 <=? d) && (d <=? days_in_month y m)
  then Ok (mkdate y m d)
  else Raise ValueError.

(** *** The regular expression behind [%Y-%m-%d]

    [_strptime] turns the format into
    [(?P<Y>\d\d\d\d)-(?P<m>1[0-2]|0[1-9]|[1-9])-(?P<d>3[0-1]|[1-2]\d|0[1-9]|[1-9]| [1-9])]
    and calls [match] on it.  A matcher returns every way to match at the
    head of the input, in the order a backtracking engine tries them, as
    pairs (matched text, unread rest). *)

Definition range (lo hi c : ascii) : bool :=
  (PyStr.code lo <=? PyStr.code c) && (PyStr.code c <=? PyStr.code hi).

Definition is_digit : ascii -> bool := range "0" "9".

Definition cls1 (p : ascii -> bool) (s : string) : list (string * string) :=
  match s with
  | String a r => if p a then [(String a "", r)] else []
  | _ => []
  end.

Definition cls2 (p q : ascii -> bool) (s : string) : list (string * string) :=
  match s with
  | String a (String b r) =>
      if p a && q b then [(String a (String b ""), r)] else []
  | _ => []
  end.

Definition lit (c : ascii) (s : string) : list (unit * string) :=
  match s with
  | String a r => if Ascii.eqb a c then [(tt, r)] else []
  | _ => []
  end.

(** One piece of the pattern, then what follows it: the pieces are tried
    in order and each match of a piece is continued on its rest. *)
Definition then_ {A B : Type} (piece : string -> list (A * string))
           (next : A -> string -> list B) (s : string) : list B :=
  flat_map (fun '(a, r) => next a r) (piece s).

(** [\d\d\d\d] *)
Definition re_Y (s : string) : list (string * string) :=
  match s with
  | String a (String b (String c (String d r))) =>
      if is_digit a && is_digit b && is_digit c && is_digit d
      then [(String a (String b (String c (String d ""))), r)]
      else []
  | _ => []
  end.

(** [1[0-2]|0[1-9]|[1-9]] *)
Definition re_m (s : string) : list (string * string) :=
  (cls2 (Ascii.eqb "1") (range "0" "2") s
   ++ cls2 (Ascii.eqb "0") (range "1" "9") s
   ++ cls1 (range "1" "9") s)%list.

(** [3[0-1]|[1-2]\d|0[1-9]|[1-9]| [1-9]] *)
Definition re_d (s : string) : list (string * string) :=
  (cls2 (Ascii.eqb "3") (range "0" "1") s
   ++ cls2 (range "1" "2") is_digit s
   ++ cls2 (Ascii.eqb "0") (range "1" "9") s
   ++ cls1 (range "1" "9") s
   ++ cls2 (Ascii.eqb " ") (range "1" "9") s)%list.

(** All matches of the whole pattern: the three groups and the rest. *)
Definition format_regex : string -> list (string * string * string * string) :=
  then_ re_Y (fun y =>
  then_ (lit "-") (fun _ =>
  then_ re_m (fun m =>
  then_ (lit "-") (fun _ =>
  then_ re_d (fun d rest => [(y, m, d, rest)]))))).

(** [int(text)] on a group: blanks around the digits are ignored. *)
Fixpoint digits_value (acc : Z) (s : string) : Z :=
  match s with
  | EmptyString => acc
  | String c s' =>
      if Ascii.eqb c " " then digits_value acc s'
      else digits_value (10 * acc + (PyStr.code c - 48)) s'
  end.

Definition int (s : string) : Z := digits_value 0 s.

(** [datetime.datetime.strptime(s, "%Y-%m-%d").date()]: no match, text
    left over after the match, and a triple that is no calendar date all
    raise [ValueError]. *)
Definition strptime (s : string) : result date :=
  match format_regex s with
  | [] => Raise ValueError
  | (y, m, d, rest) :: _ =>
      match rest with
      | EmptyString => make_date (int y) (int m) (int d)
      | String _ _ => Raise ValueError
      end
  end.

End Dates.

(** Lines 466-471 of [_get_biography_date]: the text read from the page is
    freed of one opening and one closing parenthesis, then parsed. *)
Definition parse_biography_date (date : string) : result Dates.date :=
  let date := if PyStr.startswith "(" date then PyStr.drop_first date else date in
  let date := if PyStr.endswith ")" date then PyStr.drop_last date else date in
  Dates.strptime date.

(** *** The texts [%Y-%m-%d] accepts, group by group *)

Module DateText.
Import Dates.

(** Four digits. *)
Definition year_text (t : string) : bool :=
  match t with
  | String a (String b (String c (String d ""))) =>
      is_digit a && is_digit b && is_digit c && is_digit d
  | _ => false
  end.

(** [1]..[9], or [01]..[12]. *)
Definition month_text (t : string) : bool :=
  match t with
  | String a "" => range "1" "9" a
  | String a (String b "") =>
      (Ascii.eqb "1" a && range "0" "2" b)
      || (Ascii.eqb "0" a && range "1" "9" b)
  | _ => false
  end.

(** [1]..[9], [01]..[31], or a blank and one of [1]..[9]. *)
Definition day_text (t : string) : bool :=
  match t with
  | String a "" => range "1" "9" a
  | String a (String b "") =>
      (Ascii.eqb "3" a && range "0" "1" b)
      || (range "1" "2" a && is_digit b)
      || (Ascii.eqb "0" a && range "1" "9" b)
      || (Ascii.eqb " " a && range "1" "9" b)
  | _ => false
  end.


End DateText.

(* ------------------------------------------------------------------ *)
(** ** The helper class [WikiScientist] *)

Module Scientist.
Import Dates.

Record WikiScientist : Type := mkWikiScientist {
  name : string;
  date_of_birth : date;
  date_of_death : date;
  summary : string;
  age : Z
}.

Definition get_age (date_of_birth date_of_death : date) : Z :=
  let age := year date_of_death - year date_of_birth in
  if (month date_of_death <? month date_of_birth)
     || ((month date_of_death =? month date_of_birth)
         && (day date_of_death <? day date_of_birth))
  then age - 1
  else age.

(** [__init__]: [age] is not a parameter. *)
Definition init (name : string) (date_of_birth date_of_death : date)
                (summary : string) : WikiScientist :=
  {| name := name;
     date_of_birth := date_of_birth;
     date_of_death := date_of_death;
     summary := summary;
     age := get_age date_of_birth date_of_death |}.

(** [__eq__] between two [WikiScientist] objects; on any other object it
    answers [False], a case the type of [other] leaves out. *)
Definition eq (self other : WikiScientist) : bool :=
  if negb (String.eqb (name self) (name other)) then false
  else if negb (date_eqb (date_of_birth self) (date_of_birth other)) then false
  else if negb (date_eqb (date_of_death self) (date_of_death other)) then false
  else if negb (age self =? age other) then false
  else if negb (String.eqb (summary self) (summary other)) then false
  else true.

(** [(m1, d1)] comes before [(m2, d2)] in the year. *)
Definition precedes (a b : Z * Z) : Prop :=
  fst a < fst b \/ (fst a = fst b /\ snd a < snd b).

End Scientist.

(* ------------------------------------------------------------------ *)
(** ** The browser: [RPA.Browser.Selenium] as the robot uses it

    The library is not part of the repository.  The model keeps what the
    docstrings of [wiki_robot.py] and the tests say of it:
    [open_available_browser] opens one more browser, numbered from 1
    ([test_open_browser]), which becomes the active one;
    [close_all_browsers] closes them all, however many ([test_close_browser]);
    a call that needs a browser raises when none is open, and a call on an
    element raises [ElementNotFound] when the page has no such element. *)

Module Browser.

Record element : Type := mkelement {
  text : string;
  attribute : string -> option string
}.

Record page : Type := mkpage {
  location : string;
  title : string;
  find : string -> option element
}.

(** What lies outside the program: the page a URL loads, the page a click
    leads to (given the page, the button and the texts typed so far), the
    page of a fresh browser, and today's date as [strftime("%b %d, %Y")]
    prints it. *)
Record Web : Type := mkWeb {
  load : string -> page;
  click : page -> string -> list (string * string) -> page;
  blank : page;
  today : string
}.

Record window : Type := mkwindow {
  id : nat;
  shown : page;
  typed : list (string * string)
}.

(** The library object: its open browsers, the active one first. *)
Definition Selenium : Type := list window.

Definition op (A : Type) : Type := Selenium -> result A * Selenium.

Definition on_active {A : Type} (f : window -> result A * window) : op A :=
  fun ws =>
    match ws with
    | [] => (Raise NoSuchWindowException, ws)
    | w :: rest => let '(r, w') := f w in (r, w' :: rest)
    end.

Definition on_element {A : Type} (locator : string)
           (f : window -> element -> result A * window) : op A :=
  on_active (fun w =>
    match find (shown w) locator with
    | None => (Raise (ElementNotFound locator), w)
    | Some e => f w e
    end).

Section Operations.
Variable web : Web.

Definition open_available_browser : op unit :=
  fun ws => (Ok tt, mkwindow (S (List.length ws)) (blank web) [] :: ws).

Definition close_all_browsers : op unit :=
  fun _ => (Ok tt, []).

Definition get_browser_ids : op (list nat) :=
  fun ws => (Ok (rev (map id ws)), ws).

Definition go_to (url : string) : op unit :=
  on_active (fun w => (Ok tt, mkwindow (id w) (load web url) [])).

Definition input_text (locator text : string) : op unit :=
  on_element locator (fun w _ =>
    (Ok tt, mkwindow (id w) (shown w) ((locator, text) :: typed w))).

Definition click_button (locator : string) : op unit :=
  on_element locator (fun w _ =>
    (Ok tt, mkwindow (id w) (click web (shown w) locator (typed w)) [])).

Definition get_location : op string :=
  on_active (fun w => (Ok (location (shown w)), w)).

Definition get_title : op string :=
  on_active (fun w => (Ok (title (shown w)), w)).

Definition get_text (locator : string) : op string :=
  on_element locator (fun w e => (Ok (text e), w)).

(** [None] stands for Python's [None]: the element has no such
    attribute. *)
Definition get_element_attribute (locator name : string)
  : op (option string) :=
  on_element locator (fun w e => (Ok (attribute e name), w)).

End Operations.

End Browser.

(* ------------------------------------------------------------------ *)
(** ** [WikiRobot] and [WikiScientistRobot] *)

Module Robot.
Import Scientist.

(** Calls that leave the program, in the order they are made. *)
Inductive event : Type :=
| OpenAvailableBrowser
| CloseAllBrowsers
| GetBrowserIds
| GoTo (url : string)
| InputText (locator text : string)
| ClickButton (locator : string)
| GetLocation
| GetTitle
| GetText (locator : string)
| GetElementAttribute (locator name : string)
| ShowDialog (body : list string) (title header file button : option string)
| HtmlToPdf (scientists : list WikiScientist) (date output_path : string).

(** The attributes of the robot object, and the calls made so far. *)
Record state : Type := mkstate {
  name : string;
  url : string;
  data : list WikiScientist;
  br : Browser.Selenium;
  calls : list event
}.

(** [WikiRobot.__init__] *)
Definition __init__ (name : string) : state :=
  {| name := name;
     url := "https://www.wikipedia.org";
     data := [];
     br := [];
     calls := [] |}.

(** *** State and exceptions *)

Definition M (A : Type) : Type := state -> result A * state.

Definition ret {A : Type} (a : A) : M A := fun s => (Ok a, s).

Definition raise {A : Type} (e : exn) : M A := fun s => (Raise e, s).

Definition bind {A B : Type} (m : M A) (k : A -> M B) : M B :=
  fun s =>
    match m s with
    | (Ok a, s') => k a s'
    | (Raise e, s') => (Raise e, s')
    end.

Definition lift {A : Type} (r : result A) : M A := fun s => (r, s).

Definition get {A : Type} (field : state -> A) : M A :=
  fun s => (Ok (field s), s).

Definition append_data (x : WikiScientist) : M unit :=
  fun s => (Ok tt, mkstate (name s) (url s) (data s ++ [x]) (br s) (calls s)).

(** A call on [self.br]: it is recorded, then the browser answers. *)
Definition on_br {A : Type} (e : event) (o : Browser.op A) : M A :=
  fun s =>
    let '(r, b) := o (br s) in
    (r, mkstate (name s) (url s) (data s) b (calls s ++ [e])).

(** A call on one of the other collaborators. *)
Definition call (e : event) : M unit :=
  fun s => (Ok tt, mkstate (name s) (url s) (data s) (br s) (calls s ++ [e])).

(** [try: body / except: handler / else: orelse].  What [body] did to the
    state before it raised stays done. *)
Definition try_except_else {A B : Type}
           (body : M A) (handler orelse : M B) : M B :=
  fun s =>
    match body s with
    | (Ok _, s') => orelse s'
    | (Raise _, s') => handler s'
    end.

Declare Scope robot_scope.
Delimit Scope robot_scope with robot.
Notation "x <- m ;; k" := (bind m (fun x => k))
  (at level 61, m at next level, right associativity) : robot_scope.
Notation "m ;; k" := (bind m (fun _ => k))
  (at level 61, right associativity) : robot_scope.
Open Scope robot_scope.

(** [utils.dialog_builder.show_dialog]: it refuses an empty [body]; the
    dialog it builds and runs is kept as one call with its arguments. *)
Definition show_dialog (body : list string)
           (title header file button : option string) : M unit :=
  match body with
  | [] => raise AssertionError
  | _ => call (ShowDialog body title header file button)
  end.

(** The quotation mark inside the XPath expressions. *)
Definition dq : string := String "034" EmptyString.

(** [sep.join(l)] *)
Fixpoint join (sep : string) (l : list string) : string :=
  match l with
  | [] => ""
  | [x] => x
  | x :: rest => x ++ sep ++ join sep rest
  end.

Section Methods.
Variable web : Browser.Web.

Definition open_browser : M unit :=
  on_br OpenAvailableBrowser (Browser.open_available_browser web).

Definition close_browser : M unit :=
  on_br CloseAllBrowsers Browser.close_all_browsers.

Definition is_browser_open : M bool :=
  ids <- on_br GetBrowserIds Browser.get_browser_ids ;;
  ret (0 <? Z.of_nat (List.length ids)).

Definition show_dialog_error : M unit :=
  title <- get name ;;
  show_dialog
    ["Unfortunately, the software robot encountered an issue.";
     "Please try again or contact support."]
    (Some title) (Some "Something went wrong") None (Some "Okay").

Definition search_article (article : string) : M unit :=
  u <- get url ;;
  on_br (GoTo u) (Browser.go_to web u) ;;
  on_br (InputText "id:searchInput" article)
        (Browser.input_text "id:searchInput" article) ;;
  on_br (ClickButton "id:search-form >> tag:button")
        (Browser.click_button web "id:search-form >> tag:button").

Definition get_location : M string :=
  on_br GetLocation Browser.get_location.

Definition get_title : M string :=
  on_br GetTitle Browser.get_title.

Definition is_at_article (article : string) : M bool :=
  u <- get url ;;
  home <- lift (get_domain u) ;;
  loc <- get_location ;;
  here <- lift (get_domain loc) ;;
  if negb (String.eqb home here) then ret false
  else
    t <- get_title ;;
    if negb (PyStr.contains (PyStr.lower article) (PyStr.lower t))
    then ret false
    else ret true.

(** *** The overrides of [WikiScientistRobot] *)

Definition _biography_lookup (header : string) : string :=
  "xpath://table[@class=" ++ dq ++ "infobox biography vcard" ++ dq ++ "]"
  ++ "//th[contains(text(), " ++ dq ++ header ++ dq ++ ")]"
  ++ "//../td/span".

Definition _get_biography_date (header : string) : M Dates.date :=
  let xpath := _biography_lookup header in
  date <- on_br (GetElementAttribute xpath "textContent")
                (Browser.get_element_attribute xpath "textContent") ;;
  match date with
  | None => raise AttributeError
  | Some date => lift (parse_biography_date date)
  end.

Definition _get_date_of_birth : M Dates.date := _get_biography_date "Born".

Definition _get_date_of_death : M Dates.date := _get_biography_date "Died".

Definition _get_first_paragraph : M string :=
  let xpath := "xpath://div[@id=" ++ dq ++ "bodyContent" ++ dq ++ "]"
               ++ "//p[not(contains(@class, " ++ dq ++ "mw-empty-elt"
               ++ dq ++ "))]" in
  on_br (GetText xpath) (Browser.get_text xpath).

Definition extract_from_article (name : string) : M WikiScientist :=
  date_of_birth <- _get_date_of_birth ;;
  date_of_death <- _get_date_of_death ;;
  first_paragraph <- _get_first_paragraph ;;
  ret (Scientist.init name date_of_birth date_of_death first_paragraph).

(** [create_html_report] refuses an empty list; the document handed to
    [html_to_pdf] is kept as the records and the date it is made of. *)
Definition create_report (output_path : string) : M unit :=
  d <- get data ;;
  match d with
  | [] => raise AssertionError
  | _ => call (HtmlToPdf d (Browser.today web) output_path)
  end.

Definition show_dialog_start (articles : list string) : M unit :=
  match articles with
  | [] => raise AssertionError
  | _ =>
  n <- get name ;;
  show_dialog
    ["Hi! I'm the Wiki-Scientist-Robot. I'm here to help you save time "
     ++ "by extracting information about famous scientists from Wikipedia.";
     "These are the steps I'm going to take:";
     "1. Navigate to Wikipedia" ++ String "010" ""
     ++ "2. Search for a scientist" ++ String "010" ""
     ++ "3. Extract the following information: date of birth, date of death, "
     ++ "age, and the first paragraph of their article" ++ String "010" ""
     ++ "4. Create a PDF report with all findings";
     "These are the scientists I'm going to search today: "
     ++ join ", " articles;
     "When you're ready, simply click the start button to begin."]
    (Some n) (Some n) None (Some "Start")
  end.

Definition show_dialog_completed (output_path : string) : M unit :=
  n <- get name ;;
  show_dialog
    ["I'm already done!"; "Below you can find a link to the report."]
    (Some n) (Some n) (Some output_path) (Some "Done").

(** *** The batch *)

Definition instructions (articles : list string) : M unit :=
  match articles with
  | [] => raise AssertionError
  | _ => show_dialog_start articles
  end.

Definition report (output_path : string) : M unit :=
  create_report output_path ;;
  show_dialog_completed output_path.

Definition get_content (article : string) : M WikiScientist :=
  is_open <- is_browser_open ;;
  (if negb is_open then open_browser else ret tt) ;;
  search_article article ;;
  found <- is_at_article article ;;
  if negb found then raise (RuntimeError "Could not find article")
  else extract_from_article article.

(** [for article in articles: self.data.append(self.get_content(article))] *)
Fixpoint for_articles (articles : list string) : M unit :=
  match articles with
  | [] => ret tt
  | article :: rest =>
      record <- get_content article ;;
      append_data record ;;
      for_articles rest
  end.

Definition run (articles : list string) (output_path : string) : M unit :=
  match articles with
  | [] => raise AssertionError
  | _ =>
      instructions articles ;;
      try_except_else
        (for_articles articles)
        (close_browser ;; show_dialog_error ;; ret tt)
        (close_browser ;; report output_path)
  end.

End Methods.

End Robot.

(* ------------------------------------------------------------------ *)
(** ** Vocabulary for the statements about the robot *)

Module Trace.
Import Robot.

(** The calls made while an article is fetched: all but closing the
    browsers, showing a dialog and writing the report. *)
Definition browsing (e : event) : bool :=
  match e with
  | CloseAllBrowsers | ShowDialog _ _ _ _ _ | HtmlToPdf _ _ _ => false
  | _ => true
  end.

(** The calls made once a browser is there: [browsing] without the test
    for an open browser and without opening one. *)
Definition on_page (e : event) : bool :=
  match e with
  | OpenAvailableBrowser | GetBrowserIds => false
  | _ => browsing e
  end.

(** [s'] is [s] some calls later, all of them of the kind [P]. *)
Definition later (P : event -> bool) (s s' : state) : Prop :=
  name s' = name s /\ url s' = url s
  /\ exists evs, calls s' = (calls s ++ evs)%list /\ forallb P evs = true.

(** [m] only makes calls of the kind [P] and leaves [data] alone. *)
Definition quiet {A : Type} (P : event -> bool) (m : M A) : Prop :=
  forall s, later P s (snd (m s)) /\ data (snd (m s)) = data s.


(** The call that closes the browsers. *)
Definition closing (e : event) : bool :=
  match e with
  | CloseAllBrowsers => true
  | _ => false
  end.

(** The dialog that announces the batch. *)
Definition announces (e : event) : Prop :=
  match e with
  | ShowDialog _ _ _ None (Some button) => button = "Start"
  | _ => False
  end.

(** The dialogs of [show_dialog_error] and [show_dialog_completed]. *)
Definition error_dialog (s : state) : event :=
  ShowDialog ["Unfortunately, the software robot encountered an issue.";
              "Please try again or contact support."]
             (Some (name s)) (Some "Something went wrong") None (Some "Okay").

Definition completed_dialog (s : state) (output_path : string) : event :=
  ShowDialog ["I'm already done!"; "Below you can find a link to the report."]
             (Some (name s)) (Some (name s)) (Some output_path) (Some "Done").

(** The first statements of [get_content], up to the search. *)
Definition reach (web : Browser.Web) (article : string) : M unit :=
  (is_open <- is_browser_open ;;
   (if negb is_open then open_browser web else ret tt) ;;
   search_article web article)%robot.

(** [get_content] from the search box on. *)
Definition finish (web : Browser.Web) (article : string)
  : M Scientist.WikiScientist :=
  (on_br (InputText "id:searchInput" article)
         (Browser.input_text "id:searchInput" article) ;;
   on_br (ClickButton "id:search-form >> tag:button")
         (Browser.click_button web "id:search-form >> tag:button") ;;
   found <- is_at_article article ;;
   if negb found then raise (RuntimeError "Could not find article")
   else extract_from_article article)%robot.

(** A sequence of calls of [open_browser] and [close_browser]. *)
Inductive session_call : Type := CallOpen | CallClose.

Definition perform (web : Browser.Web) (c : session_call) : M unit :=
  match c with
  | CallOpen => open_browser web
  | CallClose => close_browser
  end.

Fixpoint perform_all (web : Browser.Web) (cs : list session_call)
         (s : state) : state :=
  match cs with
  | [] => s
  | c :: cs' => perform_all web cs' (snd (perform web c s))
  end.

(** The browsers open after the calls, from [n] open ones. *)
Fixpoint sessions_after (cs : list session_call) (n : nat) : nat :=
  match cs with
  | [] => n
  | CallOpen :: cs' => sessions_after cs' (S n)
  | CallClose :: cs' => sessions_after cs' 0%nat
  end.

(** [needle] occurs in [hay]. *)
Definition occurs_in (needle hay : string) : Prop :=
  exists before after, hay = before ++ needle ++ after.

End Trace.

(* ------------------------------------------------------------------ *)
(** ** A small web to run the robot on *)

Module Demo.
Import Browser.

Definition no_attribute : string -> option string := fun _ => None.

Definition text_content (value : string) : string -> option string :=
  fun name => if String.eqb name "textContent" then Some value else None.

Definition home_page : page :=
  mkpage "https://www.wikipedia.org" "Wikipedia"
    (fun locator =>
       if String.eqb locator "id:searchInput"
          || String.eqb locator "id:search-form >> tag:button"
       then Some (mkelement "" no_attribute)
       else None).

Definition first_paragraph : string :=
  "xpath://div[@id=" ++ Robot.dq ++ "bodyContent" ++ Robot.dq ++ "]"
  ++ "//p[not(contains(@class, " ++ Robot.dq ++ "mw-empty-elt"
  ++ Robot.dq ++ "))]".

Definition biography (location title born died paragraph : string) : page :=
  mkpage location title
    (fun locator =>
       if String.eqb locator (Robot._biography_lookup "Born")
       then Some (mkelement born (text_content born))
       else if String.eqb locator (Robot._biography_lookup "Died")
       then Some (mkelement died (text_content died))
       else if String.eqb locator first_paragraph
       then Some (mkelement paragraph no_attribute)
       else None).

Definition turing_page : page :=
  biography "https://en.wikipedia.org/wiki/Alan_Turing"
            "Alan Turing - Wikipedia"
            "1912-06-23" "(1954-06-07)" "Alan Mathison Turing ...".

Definition newton_page : page :=
  biography "https://en.wikipedia.org/wiki/Isaac_Newton"
            "Isaac Newton - Wikipedia"
            "1643-01-04" "(1727-03-31)" "Sir Isaac Newton ...".

Definition results_page : page :=
  mkpage "https://en.wikipedia.org/w/index.php" "Search results - Wikipedia"
         (fun _ => None).

Definition blank_page : page := mkpage "about:blank" "" (fun _ => None).

Definition web : Web :=
  mkWeb (fun _ => home_page)
        (fun _ _ typed =>
           match typed with
           | (_, query) :: _ =>
               if String.eqb query "Alan Turing" then turing_page
               else if String.eqb query "Isaac Newton" then newton_page
               else results_page
           | [] => results_page
           end)
        blank_page
        "Nov 04, 2026".

Definition turing : Scientist.WikiScientist :=
  Scientist.init "Alan Turing" (Dates.mkdate 1912 6 23)
                 (Dates.mkdate 1954 6 7) "Alan Mathison Turing ...".

Definition newton : Scientist.WikiScientist :=
  Scientist.init "Isaac Newton" (Dates.mkdate 1643 1 4)
                 (Dates.mkdate 1727 3 31) "Sir Isaac Newton ...".

Definition robot : Robot.state := Robot.__init__ "Test Robot".

(** The robot after [open_browser], before any search. *)
Definition opened : Robot.state := snd (Robot.open_browser web robot).

(** The robot in a batch of three, once Alan Turing is done, and once
    the search for the second name has failed. *)
Definition after_turing : Robot.state :=
  snd (Robot.for_articles web ["Alan Turing"]
         (snd (Robot.instructions ["Alan Turing"; "Nobody"; "Isaac Newton"]
                                  robot))).

Definition after_nobody : Robot.state :=
  snd (Robot.get_content web "Nobody" after_turing).

(** The robot of a batch of three once the batch is announced, and the
    robot of a batch of two once both articles are done. *)
Definition announced : Robot.state :=
  snd (Robot.instructions ["Alan Turing"; "Nobody"; "Isaac Newton"] robot).

Definition both_done : Robot.state :=
  snd (Robot.for_articles web ["Alan Turing"; "Isaac Newton"]
         (snd (Robot.instructions ["Alan Turing"; "Isaac Newton"] robot))).

(** The robot after it has searched for Alan Turing. *)
Definition at_turing : Robot.state :=
  snd (Trace.reach web "Alan Turing" robot).

End Demo.

(* ------------------------------------------------------------------ *)
(** ** [utils/html_template.py] *)

Module Html.
Import Dates Scientist.

(** [str(n)] for an integer. *)
Definition str_int (n : Z) : string := NilZero.string_of_int (Z.to_int n).

Fixpoint zeros (n : nat) : string :=
  match n with
  | O => EmptyString
  | S k => String "0" (zeros k)
  end.

(** [s.zfill(width)] for a text of digits. *)
Definition zfill (width : nat) (s : string) : string :=
  zeros (width - String.length s) ++ s.

(** ["%0<width>d" % n]: the sign counts in the width. *)
Definition format_0d (width : nat) (n : Z) : string :=
  if n <? 0 then "-" ++ zfill (width - 1) (str_int (- n))
  else zfill width (str_int n).

(** [str(d)] for a date, which is [d.isoformat()]:
    ["%04d-%02d-%02d" % (year, month, day)]. *)
Definition isoformat (d : date) : string :=
  format_0d 4 (year d) ++ "-" ++ format_0d 2 (month d) ++ "-"
  ++ format_0d 2 (day d).

Definition html_document (header sections : string) : string :=
  "<html>" ++ "<head></head>"
  ++ ("<body>" ++ header ++ sections ++ "</body>")
  ++ "</html>".

Definition html_header (date : string) : string :=
  ("<h1 align=" ++ Robot.dq ++ "center" ++ Robot.dq
   ++ ">Wikipedia Scientist Report</h1>")
  ++ ("<h4 align=" ++ Robot.dq ++ "center" ++ Robot.dq
      ++ ">Prepared on " ++ date ++ "</h4>").

Definition html_section (name : string) (date_of_birth date_of_death : date)
           (age : Z) (summary : string) : string :=
  "<br>"
  ++ ("<h3>" ++ name ++ "</h3>")
  ++ ("<ol><li><b>Date of Birth: </b>" ++ isoformat date_of_birth ++ "</li>")
  ++ ("<li><b>Date of Death: </b>" ++ isoformat date_of_death ++ "</li>")
  ++ ("<li><b>Age: </b>" ++ str_int age ++ "</li>")
  ++ ("<li><b>Summary: </b>" ++ summary ++ "</li></ol>").

(** The section of one record, as the loop of [create_html_report] calls
    [html_section]. *)
Definition section_of (scientist : WikiScientist) : string :=
  html_section (name scientist) (date_of_birth scientist)
               (date_of_death scientist) (age scientist) (summary scientist).

Definition create_html_report (scientists : list WikiScientist)
           (date : string) : result string :=
  match scientists with
  | [] => Raise AssertionError
  | _ =>
      let header := html_header date in
      let sections :=
        fold_left (fun sections scientist => sections ++ section_of scientist)
                  scientists "" in
      Ok (html_document header sections)
  end.

End Html.

(* ------------------------------------------------------------------ *)
(** ** [utils/dialog_builder.py] *)

Module Dialog.

(** The calls on the [RPA.Assistant] object. *)
Inductive assistant_call : Type :=
| AddHeading (header : string)
| AddText (text : string)
| AddFile (file : string)
| AddSubmitButtons (button : string)
| RunDialog (title : option string).

(** [if x:] on an optional text: [None] and the empty text are false. *)
Definition truthy (x : option string) : option string :=
  match x with
  | Some EmptyString => None
  | _ => x
  end.

Definition when_given (x : option string) (f : string -> assistant_call)
  : list assistant_call :=
  match truthy x with
  | Some v => [f v]
  | None => []
  end.

(** [show_dialog], as the calls it makes on a new [Assistant]. *)
Definition show_dialog (body : list string)
           (title header file button : option string)
  : result (list assistant_call) :=
  match body with
  | [] => Raise AssertionError
  | _ =>
      Ok (when_given header AddHeading
          ++ map AddText body
          ++ when_given file AddFile
          ++ when_given button AddSubmitButtons
          ++ [RunDialog title])%list
  end.

(** The dialog behind a [ShowDialog] call of the robot. *)
Definition of_event (e : Robot.event) : result (list assistant_call) :=
  match e with
  | Robot.ShowDialog body title header file button =>
      show_dialog body title header file button
  | _ => Ok []
  end.

End Dialog.

(* ------------------------------------------------------------------ *)
(** ** More vocabulary *)

Module Calendar.
Import Dates Scientist.

(** [a] is an earlier day than [b]. *)
Definition before (a b : date) : Prop :=
  year a < year b
  \/ (year a = year b /\ precedes (month a, day a) (month b, day b)).

(** The same day of the year, [n] years on. *)
Definition add_years (d : date) (n : Z) : date :=
  mkdate (year d + n) (month d) (day d).

(** [d] is a day of the calendar, as [datetime.date] accepts it. *)
Definition valid (d : date) : Prop :=
  make_date (year d) (month d) (day d) = Ok d.

End Calendar.

Module Reads.
Import Robot.

(** The three reads of [extract_from_article], in the order it makes
    them. *)
Definition born_locator : string := _biography_lookup "Born".

Definition died_locator : string := _biography_lookup "Died".

Definition paragraph_locator : string :=
  "xpath://div[@id=" ++ dq ++ "bodyContent" ++ dq ++ "]"
  ++ "//p[not(contains(@class, " ++ dq ++ "mw-empty-elt" ++ dq ++ "))]".

Definition reads : list event :=
  [GetElementAttribute born_locator "textContent";
   GetElementAttribute died_locator "textContent";
   GetText paragraph_locator].

(** The text of the attribute [textContent] of the element at [locator]. *)
Definition text_content (p : Browser.page) (locator : string) : option string :=
  match Browser.find p locator with
  | Some e => Browser.attribute e "textContent"
  | None => None
  end.

Definition text_at (p : Browser.page) (locator : string) : option string :=
  match Browser.find p locator with
  | Some e => Some (Browser.text e)
  | None => None
  end.

(** [m] neither opens nor closes a browser. *)
Definition keeps_browsers {A : Type} (m : M A) : Prop :=
  forall s,
    map Browser.id (br (snd (m s))) = map Browser.id (br s).

(** What the calls on the browser can tell of it: the page of the active
    browser and the texts typed into it. *)
Definition view (ws : Browser.Selenium)
  : option (Browser.page * list (string * string)) :=
  match ws with
  | [] => None
  | w :: _ => Some (Browser.shown w, Browser.typed w)
  end.

Definition same_view (s s' : state) : Prop :=
  url s = url s' /\ view (br s) = view (br s').

(** [m] answers the same, and leaves the same view, on robots with the
    same view. *)
Definition uniform {A : Type} (m : M A) : Prop :=
  forall s s',
    same_view s s' ->
    fst (m s) = fst (m s') /\ same_view (snd (m s)) (snd (m s')).

(** The robot [s] after the first [k] reads. *)
Definition after_reads (s : state) (k : nat) : state :=
  mkstate (name s) (url s) (data s) (br s) (calls s ++ firstn k reads).

End Reads.

(* ------------------------------------------------------------------ *)
(** ** [main.py] *)

Module Main.

Definition SCIENTISTS : list string :=
  ["Albert Einstein"; "Isaac Newton"; "Marie Curie"; "Charles Darwin"].

(** [main()]: a new robot, run on the four names; the result and the robot
    it leaves behind. *)
Definition main (web : Browser.Web) : result unit * Robot.state :=
  let robot := Robot.__init__ "Wiki-Scientist-Robot" in
  Robot.run web SCIENTISTS "report.pdf" robot.

End Main.

(* ================================================================== *)
(** * Properties *)

(* ------------------------------------------------------------------ *)
(** ** Strings *)

Section StringFacts.
Import PyStr.

Lemma split_not_nil sep s : split sep s <> [].
Proof.
  destruct s as [|c s]; simpl; [discriminate|].
  destruct (Ascii.eqb c sep); [discriminate|].
  destruct (split sep s); discriminate.
Qed.

Lemma split_without_sep sep s :
  has_char sep s = false -> split sep s = [s].
Proof.
  induction s as [|c s IH]; simpl; intros H; [reflexivity|].
  apply orb_false_iff in H as [Hc Hs].
  rewrite Hc, (IH Hs). reflexivity.
Qed.

Lemma split_at_first_sep sep a r :
  has_char sep a = false ->
  split sep (a ++ String sep r) = a :: split sep r.
Proof.
  induction a as [|c a IH]; simpl; intros H.
  - rewrite Ascii.eqb_refl. reflexivity.
  - apply orb_false_iff in H as [Hc Ha].
    rewrite Hc, (IH Ha). reflexivity.
Qed.

Lemma has_char_first sep s :
  has_char sep s = true ->
  exists a r, s = a ++ String sep r /\ has_char sep a = false.
Proof.
  induction s as [|c s IH]; simpl; intros H; [discriminate|].
  destruct (Ascii.eqb c sep) eqn:Hc.
  - apply Ascii.eqb_eq in Hc. subst c.
    exists "", s. split; reflexivity.
  - destruct (IH H) as (a & r & -> & Ha).
    exists (String c a), r. simpl. rewrite Hc, Ha. split; reflexivity.
Qed.

Lemma has_char_app sep a b :
  has_char sep (a ++ b) = has_char sep a || has_char sep b.
Proof.
  induction a as [|c a IH]; simpl; [reflexivity|].
  rewrite IH. apply orb_assoc.
Qed.

Lemma split_length_one sep s :
  has_char sep s = false <-> List.length (split sep s) = 1%nat.
Proof.
  split.
  - intros H. rewrite (split_without_sep _ _ H). reflexivity.
  - destruct (has_char sep s) eqn:H; [|reflexivity].
    destruct (has_char_first _ _ H) as (a & r & -> & Ha).
    rewrite (split_at_first_sep _ _ _ Ha). simpl.
    pose proof (split_not_nil sep r).
    destruct (split sep r); [contradiction|discriminate].
Qed.

(** The second component of a string with a separator in it. *)
Lemma second_component sep s :
  has_char sep s = true ->
  exists a b rest,
    s = a ++ String sep (b ++ rest)
    /\ has_char sep a = false
    /\ has_char sep b = false
    /\ (rest = "" \/ startswith sep rest = true)
    /\ index (split sep s) 1 = Ok b.
Proof.
  intros H.
  destruct (has_char_first _ _ H) as (a & r & -> & Ha).
  rewrite (split_at_first_sep _ _ _ Ha).
  destruct (has_char sep r) eqn:Hr.
  - destruct (has_char_first _ _ Hr) as (b & r' & -> & Hb).
    exists a, b, (String sep r').
    rewrite (split_at_first_sep _ _ _ Hb). simpl.
    rewrite Ascii.eqb_refl. auto 6.
  - exists a, r, "".
    rewrite (split_without_sep _ _ Hr).
    replace (r ++ "") with r by (clear; induction r; simpl; congruence).
    auto 6.
Qed.

End StringFacts.

(* ------------------------------------------------------------------ *)
(** ** [get_domain] *)

(** C5.  For every URL with at least one dot in it, [get_domain] returns
    the second of its dot-delimited components, lower-cased: the URL reads
    [a.b] or [a.b.more] with no dot in [a] nor in [b], and the result is
    [lower b].  For the address of the article on Alan Turing the result is
    [wikipedia]. *)
Theorem get_domain_second_component :
  (forall url,
      PyStr.has_char "." url = true ->
      exists a b rest,
        url = a ++ "." ++ b ++ rest
        /\ PyStr.has_char "." a = false
        /\ PyStr.has_char "." b = false
        /\ (rest = "" \/ PyStr.startswith "." rest = true)
        /\ PyStr.index (PyStr.split "." url) 1 = Ok b
        /\ get_domain url = Ok (PyStr.lower b))
  /\ get_domain "https://en.wikipedia.org/wiki/Alan_Turing" = Ok "wikipedia".
Proof.
  split; [|reflexivity].
  intros url H.
  destruct (second_component _ _ H) as (a & b & rest & E & Ha & Hb & Hr & Hi).
  exists a, b, rest. unfold get_domain. rewrite Hi. auto 7.
Qed.

Lemma get_domain_second_component_witness :
  PyStr.has_char "." "https://www.wikipedia.org" = true
  /\ exists a b rest,
      "https://www.wikipedia.org" = a ++ "." ++ b ++ rest
      /\ PyStr.has_char "." a = false
      /\ PyStr.has_char "." b = false
      /\ (rest = "" \/ PyStr.startswith "." rest = true)
      /\ PyStr.index (PyStr.split "." "https://www.wikipedia.org") 1 = Ok b
      /\ get_domain "https://www.wikipedia.org" = Ok (PyStr.lower b).
Proof.
  split; [reflexivity|].
  apply (proj1 get_domain_second_component). reflexivity.
Defined.

(** C10.  [get_domain] is partial: on a string without any dot the split
    has a single component, the lookup of the second one is out of range and
    the call raises [IndexError]; it returns a string exactly when the input
    has at least one dot.  ["localhost"] and the empty string both raise. *)
Theorem get_domain_partial :
  (forall url,
      (PyStr.has_char "." url = false ->
       List.length (PyStr.split "." url) = 1%nat
       /\ get_domain url = Raise IndexError)
      /\ ((exists d, get_domain url = Ok d) <-> PyStr.has_char "." url = true))
  /\ get_domain "localhost" = Raise IndexError
  /\ get_domain "" = Raise IndexError.
Proof.
  split; [|split; reflexivity].
  intros url. split.
  - intros H. split; [apply split_length_one; exact H|].
    unfold get_domain. rewrite (split_without_sep _ _ H). reflexivity.
  - split.
    + intros [d Hd]. destruct (PyStr.has_char "." url) eqn:H; [reflexivity|].
      unfold get_domain in Hd. rewrite (split_without_sep _ _ H) in Hd.
      discriminate.
    + intros H.
      destruct (second_component _ _ H) as (_ & b & _ & _ & _ & _ & _ & Hi).
      exists (PyStr.lower b). unfold get_domain. rewrite Hi. reflexivity.
Qed.

Lemma get_domain_partial_witness :
  PyStr.has_char "." "localhost" = false
  /\ List.length (PyStr.split "." "localhost") = 1%nat
  /\ get_domain "localhost" = Raise IndexError.
Proof.
  split; [reflexivity|].
  apply (proj1 (proj1 get_domain_partial "localhost")). reflexivity.
Defined.

(* ------------------------------------------------------------------ *)
(** ** [WikiScientist] *)

Section ScientistFacts.
Import Dates Scientist.

Lemma date_eqb_eq a b : date_eqb a b = true <-> a = b.
Proof.
  unfold date_eqb. destruct a as [y m d], b as [y' m' d']; simpl.
  rewrite !andb_true_iff, !Z.eqb_eq.
  split; [intros [[-> ->] ->]; reflexivity | intros H; inversion H; auto].
Qed.

Lemma eq_fields a b :
  Scientist.eq a b = true <->
  name a = name b /\ date_of_birth a = date_of_birth b
  /\ date_of_death a = date_of_death b /\ age a = age b
  /\ summary a = summary b.
Proof.
  unfold Scientist.eq.
  rewrite <- (String.eqb_eq (name a)), <- (String.eqb_eq (summary a)).
  rewrite <- (date_eqb_eq (date_of_birth a)), <- (date_eqb_eq (date_of_death a)).
  rewrite <- (Z.eqb_eq (age a)).
  destruct (String.eqb (name a) (name b)),
           (date_eqb (date_of_birth a) (date_of_birth b)),
           (date_eqb (date_of_death a) (date_of_death b)),
           (age a =? age b),
           (String.eqb (summary a) (summary b)); simpl;
    intuition discriminate.
Qed.

End ScientistFacts.

(** C2.  The age is the difference of the years, less one exactly when the
    month and day of death come before the month and day of birth; from
    1912-06-23 to 1954-06-07 it is 41. *)
Theorem get_age_completed_years :
  (forall birth death : Dates.date,
      (Scientist.precedes (Dates.month death, Dates.day death)
                          (Dates.month birth, Dates.day birth) ->
       Scientist.get_age birth death = Dates.year death - Dates.year birth - 1)
      /\ (~ Scientist.precedes (Dates.month death, Dates.day death)
                               (Dates.month birth, Dates.day birth) ->
          Scientist.get_age birth death = Dates.year death - Dates.year birth))
  /\ Scientist.get_age (Dates.mkdate 1912 6 23) (Dates.mkdate 1954 6 7) = 41.
Proof.
  split; [|reflexivity].
  intros [by_ bm bd] [dy dm dd].
  unfold Scientist.precedes, Scientist.get_age; simpl.
  destruct (dm <? bm) eqn:Hm; destruct (dm =? bm) eqn:He;
    destruct (dd <? bd) eqn:Hd; simpl;
    rewrite ?Z.ltb_lt, ?Z.ltb_ge, ?Z.eqb_eq, ?Z.eqb_neq in *;
    split; intros; lia.
Qed.

Lemma get_age_completed_years_witness :
  Scientist.precedes (6, 7) (6, 23)
  /\ Scientist.get_age (Dates.mkdate 1912 6 23) (Dates.mkdate 1954 6 7)
     = 1954 - 1912 - 1.
Proof.
  assert (H : Scientist.precedes (6, 7) (6, 23))
    by (right; simpl; split; [reflexivity | lia]).
  split; [exact H|].
  exact (proj1 (proj1 get_age_completed_years
                      (Dates.mkdate 1912 6 23) (Dates.mkdate 1954 6 7)) H).
Defined.

(** C9.  Two records are equal, by [__eq__], if and only if their five
    fields are equal, which is the same as being the same value; the age of
    a record that [__init__] builds is computed from its two dates, so two
    built records are equal exactly when name, dates and summary agree. *)
Theorem eq_value_semantics :
  (forall a b : Scientist.WikiScientist,
      Scientist.eq a b = true <->
      Scientist.name a = Scientist.name b
      /\ Scientist.date_of_birth a = Scientist.date_of_birth b
      /\ Scientist.date_of_death a = Scientist.date_of_death b
      /\ Scientist.age a = Scientist.age b
      /\ Scientist.summary a = Scientist.summary b)
  /\ (forall a b : Scientist.WikiScientist, Scientist.eq a b = true <-> a = b)
  /\ (forall n b d s,
         Scientist.age (Scientist.init n b d s) = Scientist.get_age b d)
  /\ (forall n b d s n' b' d' s',
         Scientist.eq (Scientist.init n b d s) (Scientist.init n' b' d' s') = true
         <-> n = n' /\ b = b' /\ d = d' /\ s = s').
Proof.
  split; [exact eq_fields|]. split; [|split].
  - intros a b. rewrite eq_fields. split.
    + destruct a, b; simpl. intros (-> & -> & -> & -> & ->). reflexivity.
    + intros ->. auto 6.
  - reflexivity.
  - intros. rewrite eq_fields. simpl. split.
    + intros (-> & -> & -> & _ & ->). auto.
    + intros (-> & -> & -> & ->). auto 6.
Qed.

Lemma eq_value_semantics_witness :
  Scientist.eq Demo.turing
    (Scientist.init "Alan Turing" (Dates.mkdate 1912 6 23)
                    (Dates.mkdate 1954 6 7) "Alan Mathison Turing ...") = true
  /\ Scientist.eq Demo.turing Demo.newton = false.
Proof.
  split.
  - apply (proj2 (proj1 eq_value_semantics _ _)). simpl. auto 6.
  - destruct (Scientist.eq Demo.turing Demo.newton) eqn:E; [|reflexivity].
    apply (proj1 (proj1 eq_value_semantics _ _)) in E.
    destruct E as [E _]. discriminate E.
Defined.

(* ------------------------------------------------------------------ *)
(** ** [strptime] with [%Y-%m-%d] *)

Section StrptimeFacts.
Import Dates DateText.

#[local] Arguments Ascii.eqb : simpl never.
#[local] Arguments range : simpl never.
#[local] Arguments is_digit : simpl never.

Lemma in_then {A B : Type} (piece : string -> list (A * string))
      (next : A -> string -> list B) s x :
  In x (then_ piece next s) <->
  exists a r, In (a, r) (piece s) /\ In x (next a r).
Proof.
  unfold then_. rewrite in_flat_map. split.
  - intros [[a r] [H1 H2]]. eauto.
  - intros (a & r & H1 & H2). exists (a, r). auto.
Qed.

Lemma then_single {A B : Type} (piece : string -> list (A * string))
      (next : A -> string -> list B) s a r :
  piece s = [(a, r)] -> then_ piece next s = next a r.
Proof. unfold then_. intros ->. simpl. apply app_nil_r. Qed.

Lemma in_cls1 p s t r :
  In (t, r) (cls1 p s) <->
  exists a, s = String a r /\ p a = true /\ t = String a "".
Proof.
  unfold cls1. split.
  - destruct s as [|a s]; simpl; [tauto|].
    destruct (p a) eqn:Ha; simpl; [|tauto].
    intros [H|[]]. inversion H; subst. eauto.
  - intros (a & -> & Ha & ->). rewrite Ha. left. reflexivity.
Qed.

Lemma in_cls2 p q s t r :
  In (t, r) (cls2 p q s) <->
  exists a b, s = String a (String b r) /\ p a = true /\ q b = true
              /\ t = String a (String b "").
Proof.
  unfold cls2. split.
  - destruct s as [|a [|b s]]; simpl; try tauto.
    destruct (p a) eqn:Ha, (q b) eqn:Hb; simpl; try tauto.
    intros [H|[]]. inversion H; subst. eauto 7.
  - intros (a & b & -> & Ha & Hb & ->). rewrite Ha, Hb. left. reflexivity.
Qed.

Lemma in_lit c s u r : In (u, r) (lit c s) <-> s = String c r.
Proof.
  unfold lit. split.
  - destruct s as [|a s]; simpl; [tauto|].
    destruct (Ascii.eqb a c) eqn:Ha; simpl; [|tauto].
    apply Ascii.eqb_eq in Ha. intros [H|[]]. inversion H; subst. reflexivity.
  - intros ->. rewrite Ascii.eqb_refl. destruct u. left. reflexivity.
Qed.

Lemma in_re_Y s t r :
  In (t, r) (re_Y s) <-> s = t ++ r /\ year_text t = true.
Proof.
  unfold re_Y. split.
  - destruct s as [|a [|b [|c [|d s]]]]; simpl; try tauto.
    destruct (is_digit a && is_digit b && is_digit c && is_digit d) eqn:H;
      simpl; [|tauto].
    intros [E|[]]. inversion E; subst. simpl. auto.
  - intros [-> H].
    destruct t as [|a [|b [|c [|d [|e t]]]]]; simpl in H; try discriminate.
    simpl. rewrite H. left. reflexivity.
Qed.

Lemma in_re_m s t r :
  In (t, r) (re_m s) <-> s = t ++ r /\ month_text t = true.
Proof.
  unfold re_m. rewrite !in_app_iff, !in_cls2, in_cls1. split.
  - intros [(a & b & -> & Ha & Hb & ->)
           |[(a & b & -> & Ha & Hb & ->)|(a & -> & Ha & ->)]];
      simpl; rewrite ?Ha, ?Hb; simpl; rewrite ?orb_true_r; auto.
  - intros [-> H].
    destruct t as [|a [|b [|c t]]]; simpl in H; try discriminate; simpl.
    + right; right. eauto.
    + apply orb_true_iff in H as [H|H]; apply andb_true_iff in H as [Ha Hb].
      * left. eauto 7.
      * right; left. eauto 7.
Qed.

Lemma in_re_d s t r :
  In (t, r) (re_d s) <-> s = t ++ r /\ day_text t = true.
Proof.
  unfold re_d. rewrite !in_app_iff, !in_cls2, in_cls1. split.
  - intros [(a & b & -> & Ha & Hb & ->)
           |[(a & b & -> & Ha & Hb & ->)
            |[(a & b & -> & Ha & Hb & ->)
             |[(a & -> & Ha & ->)|(a & b & -> & Ha & Hb & ->)]]]];
      simpl; rewrite ?Ha, ?Hb; simpl; rewrite ?orb_true_r; auto.
  - intros [-> H].
    destruct t as [|a [|b [|c t]]]; simpl in H; try discriminate; simpl.
    + do 3 right; left. eauto.
    + rewrite !orb_true_iff, !andb_true_iff in H.
      destruct H as [[[[Ha Hb]|[Ha Hb]]|[Ha Hb]]|[Ha Hb]].
      * left. eauto 7.
      * right; left. eauto 7.
      * do 2 right; left. eauto 7.
      * do 4 right. eauto 7.
Qed.

(** Every match of the pattern splits the input into year, month, day
    and rest, and every such split is a match. *)
Lemma in_format_regex s y m d r :
  In (y, m, d, r) (format_regex s) <->
  s = y ++ "-" ++ m ++ "-" ++ d ++ r
  /\ year_text y = true /\ month_text m = true /\ day_text d = true.
Proof.
  unfold format_regex. rewrite in_then. split.
  - intros (y' & r1 & Hy & H). apply in_re_Y in Hy as [-> Hy].
    apply in_then in H as ([] & r2 & H1 & H). apply in_lit in H1 as ->.
    apply in_then in H as (m' & r3 & Hm & H). apply in_re_m in Hm as [-> Hm].
    apply in_then in H as ([] & r4 & H2 & H). apply in_lit in H2 as ->.
    apply in_then in H as (d' & r5 & Hd & H). apply in_re_d in Hd as [-> Hd].
    destruct H as [H|[]]. inversion H; subst.
    simpl. auto.
  - intros (-> & Hy & Hm & Hd).
    exists y, ("-" ++ m ++ "-" ++ d ++ r). split; [apply in_re_Y; auto|].
    apply in_then. exists tt, (m ++ "-" ++ d ++ r).
    split; [apply in_lit; reflexivity|].
    apply in_then. exists m, ("-" ++ d ++ r). split; [apply in_re_m; auto|].
    apply in_then. exists tt, (d ++ r).
    split; [apply in_lit; reflexivity|].
    apply in_then. exists d, r. split; [apply in_re_d; auto|].
    left. reflexivity.
Qed.

(** *** The first match is the one that counts *)

Lemma range_excludes lo hi c a :
  range lo hi a = true ->
  PyStr.code c < PyStr.code lo \/ PyStr.code hi < PyStr.code c ->
  Ascii.eqb a c = false.
Proof.
  intros H Hc. destruct (Ascii.eqb a c) eqn:E; [|reflexivity].
  apply Ascii.eqb_eq in E. subst a.
  unfold range in H. rewrite andb_true_iff, !Z.leb_le in H. lia.
Qed.

Lemma append_empty_r s : s ++ "" = s.
Proof. induction s; simpl; congruence. Qed.

Lemma re_Y_text y r : year_text y = true -> re_Y (y ++ r) = [(y, r)].
Proof.
  intros H.
  destruct y as [|a [|b [|c [|d [|e y]]]]]; simpl in H; try discriminate.
  simpl. rewrite H. reflexivity.
Qed.

Lemma lit_here c r : lit c (String c r) = [(tt, r)].
Proof. unfold lit. rewrite Ascii.eqb_refl. reflexivity. Qed.

(** A month followed by a hyphen: the alternatives that read another
    month out of the same text stop at the hyphen test. *)
Lemma then_month_dash {B : Type} m r (next : string -> unit -> string -> list B) :
  month_text m = true ->
  then_ re_m (fun m' => then_ (lit "-") (next m')) (m ++ String "-" r)
  = next m tt r.
Proof.
  intros Hm. unfold then_ at 1, re_m, cls2, cls1.
  destruct m as [|a [|b [|c m]]]; simpl in Hm; try discriminate;
    simpl append; cbv beta iota.
  - rewrite Hm.
    change (range "0" "2" "-") with false.
    change (range "1" "9" "-") with false.
    rewrite !andb_false_r. simpl.
    rewrite (then_single _ _ _ _ _ (lit_here "-" r)). apply app_nil_r.
  - apply orb_true_iff in Hm as [H|H]; apply andb_true_iff in H as [Ha Hb];
      apply Ascii.eqb_eq in Ha; subst a; rewrite Hb.
    + change (Ascii.eqb "1" "1") with true.
      change (Ascii.eqb "0" "1") with false.
      change (range "1" "9" "1") with true. simpl.
      rewrite (then_single _ _ _ _ _ (lit_here "-" r)).
      unfold then_ at 1, lit.
      rewrite (range_excludes _ _ "-" _ Hb) by (left; reflexivity).
      simpl. rewrite !app_nil_r. reflexivity.
    + change (Ascii.eqb "1" "0") with false.
      change (Ascii.eqb "0" "0") with true.
      change (range "1" "9" "0") with false. simpl.
      rewrite (then_single _ _ _ _ _ (lit_here "-" r)). apply app_nil_r.
Qed.

(** A day at the end of the text: the first alternative that matches
    reads all of it. *)
Lemma re_d_text d : day_text d = true -> exists l, re_d d = (d, "") :: l.
Proof.
  intros H. unfold re_d, cls2, cls1.
  destruct d as [|a [|b [|c d]]]; simpl in H; try discriminate;
    cbv beta iota.
  - rewrite H. simpl. eauto.
  - destruct (Ascii.eqb "3" a && range "0" "1" b); simpl; eauto.
    destruct (range "1" "2" a && is_digit b); simpl; eauto.
    destruct (Ascii.eqb "0" a && range "1" "9" b); simpl; eauto.
    simpl in H. apply andb_true_iff in H as [Ha Hb].
    apply Ascii.eqb_eq in Ha. subst a. rewrite Hb.
    change (range "1" "9" " ") with false.
    change (Ascii.eqb " " " ") with true. simpl. eauto.
Qed.

Lemma format_regex_text y m d :
  year_text y = true -> month_text m = true -> day_text d = true ->
  exists l, format_regex (y ++ "-" ++ m ++ "-" ++ d) = (y, m, d, "") :: l.
Proof.
  intros Hy Hm Hd. unfold format_regex.
  rewrite (then_single _ _ _ _ _ (re_Y_text y _ Hy)).
  change ("-" ++ m ++ "-" ++ d) with (String "-" (m ++ String "-" d)).
  rewrite (then_single _ _ _ _ _ (lit_here "-" _)).
  pose proof (then_month_dash m d
    (fun m' _ => then_ re_d (fun d' rest => [(y, m', d', rest)])) Hm) as E.
  cbv beta in E. rewrite E. clear E.
  destruct (re_d_text d Hd) as [l E]. unfold then_. rewrite E. simpl. eauto.
Qed.

(** What [strptime] returns, and when. *)
Lemma strptime_text y m d :
  year_text y = true -> month_text m = true -> day_text d = true ->
  strptime (y ++ "-" ++ m ++ "-" ++ d) = make_date (int y) (int m) (int d).
Proof.
  intros Hy Hm Hd. unfold strptime.
  destruct (format_regex_text y m d Hy Hm Hd) as [l ->]. reflexivity.
Qed.

Lemma strptime_ok_inv s dt :
  strptime s = Ok dt ->
  exists y m d,
    s = y ++ "-" ++ m ++ "-" ++ d
    /\ year_text y = true /\ month_text m = true /\ day_text d = true
    /\ make_date (int y) (int m) (int d) = Ok dt.
Proof.
  unfold strptime.
  destruct (format_regex s) as [|[[[y m] d] r] l] eqn:E; [discriminate|].
  destruct r; [|discriminate]. intros H.
  assert (I : In (y, m, d, "") (format_regex s)) by (rewrite E; left; reflexivity).
  apply in_format_regex in I as (-> & Hy & Hm & Hd).
  rewrite append_empty_r. eauto 10.
Qed.

Lemma strptime_raises s e : strptime s = Raise e -> e = ValueError.
Proof.
  unfold strptime, make_date.
  destruct (format_regex s) as [|[[[y m] d] r] l]; [congruence|].
  destruct r; [|congruence].
  match goal with |- context [if ?c then _ else _] => destruct c end;
    congruence.
Qed.


(** *** The strict shape [YYYY-MM-DD] *)



Lemma range_code_false lo hi c :
  range lo hi c = false <->
  PyStr.code c < PyStr.code lo \/ PyStr.code hi < PyStr.code c.
Proof. unfold range. rewrite andb_false_iff, !Z.leb_gt. tauto. Qed.





Lemma days_in_month_le y m : days_in_month y m <= 31.
Proof.
  unfold days_in_month.
  destruct (m =? 2); [destruct (is_leap y); lia|].
  destruct ((m =? 4) || (m =? 6) || (m =? 9) || (m =? 11)); lia.
Qed.



End StrptimeFacts.

(* ------------------------------------------------------------------ *)
(** ** Dates of the biography table *)

Section ParenthesisFacts.
Import PyStr.




End ParenthesisFacts.




(* ------------------------------------------------------------------ *)
(** ** The browser sessions *)

Section SessionFacts.
Import Robot Trace.
Variable web : Browser.Web.

Lemma is_browser_open_result s :
  is_browser_open s
  = (Ok (match br s with [] => false | _ => true end),
     mkstate (name s) (url s) (data s) (br s) (calls s ++ [GetBrowserIds])).
Proof.
  unfold is_browser_open, bind, on_br, Browser.get_browser_ids, ret.
  simpl. rewrite length_rev, length_map.
  destruct (br s); reflexivity.
Qed.

Lemma open_browser_result s :
  open_browser web s
  = (Ok tt,
     mkstate (name s) (url s) (data s)
             (Browser.mkwindow (S (List.length (br s))) (Browser.blank web) []
                :: br s)
             (calls s ++ [OpenAvailableBrowser])).
Proof. reflexivity. Qed.

Lemma close_browser_result s :
  close_browser s
  = (Ok tt,
     mkstate (name s) (url s) (data s) [] (calls s ++ [CloseAllBrowsers])).
Proof. reflexivity. Qed.

Lemma perform_all_sessions cs :
  forall s,
    List.length (br (perform_all web cs s))
    = sessions_after cs (List.length (br s)).
Proof.
  induction cs as [|[] cs IH]; intros s; simpl; [reflexivity| |];
    rewrite IH; reflexivity.
Qed.

End SessionFacts.

(** C8.  After any sequence of [open_browser] and [close_browser] calls:
    the number of open browsers is the number of opens since the last
    close; opening never fails and adds one more browser, also when some
    are open already; closing never fails, also when none is open, and
    leaves none; [is_browser_open] answers true exactly when at least one
    browser is open, hence false right after a close. *)
Theorem open_close_sessions :
  forall (web : Browser.Web) (cs : list Trace.session_call) (s : Robot.state),
    let s' := Trace.perform_all web cs s in
    List.length (Robot.br s')
    = Trace.sessions_after cs (List.length (Robot.br s))
    /\ (fst (Robot.open_browser web s') = Ok tt
        /\ List.length (Robot.br (snd (Robot.open_browser web s')))
           = S (List.length (Robot.br s')))
    /\ (fst (Robot.close_browser s') = Ok tt
        /\ Robot.br (snd (Robot.close_browser s')) = [])
    /\ (exists b, fst (Robot.is_browser_open s') = Ok b
                  /\ (b = true <-> (0 < List.length (Robot.br s'))%nat)
                  /\ Robot.br (snd (Robot.is_browser_open s')) = Robot.br s')
    /\ fst (Robot.is_browser_open (snd (Robot.close_browser s'))) = Ok false.
Proof.
  intros web cs s s'. split; [apply perform_all_sessions|].
  split; [split; reflexivity|]. split; [split; reflexivity|].
  split; [|reflexivity].
  rewrite is_browser_open_result. simpl.
  exists (match Robot.br s' with [] => false | _ => true end).
  split; [reflexivity|]. split; [|reflexivity].
  destruct (Robot.br s'); simpl; split; try discriminate; try reflexivity;
    intros; lia.
Qed.

Lemma open_close_sessions_witness :
  List.length
    (Robot.br (Trace.perform_all Demo.web
                 [Trace.CallOpen; Trace.CallClose; Trace.CallOpen; Trace.CallOpen]
                 Demo.robot)) = 2%nat.
Proof.
  exact (proj1 (open_close_sessions Demo.web
                  [Trace.CallOpen; Trace.CallClose; Trace.CallOpen; Trace.CallOpen]
                  Demo.robot)).
Defined.

(* ------------------------------------------------------------------ *)
(** ** [is_at_article] *)

Section ArticleFacts.
Import Robot Trace.

Lemma prefix_spec n h : prefix n h = true <-> exists post, h = n ++ post.
Proof.
  revert h. induction n as [|c n IH]; intros h.
  - split; [simpl; eauto | intros _; destruct h; reflexivity].
  - destruct h as [|c' h]; simpl.
    + split; [discriminate | intros [post E]; discriminate].
    + destruct (ascii_dec c c') as [<-|N].
      * rewrite IH. split; intros [post E]; exists post; congruence.
      * split; [discriminate | intros [post E]; congruence].
Qed.

Lemma contains_spec n h : PyStr.contains n h = true <-> occurs_in n h.
Proof.
  unfold occurs_in. induction h as [|c h IH]; cbn [PyStr.contains].
  - rewrite orb_false_r, prefix_spec. split.
    + intros [post E]. exists "", post. exact E.
    + intros ([|b before] & after & E); simpl in E; [eauto | discriminate].
  - rewrite orb_true_iff, IH, prefix_spec. split.
    + intros [[post E]|(before & after & E)].
      * exists "", post. exact E.
      * exists (String c before), after. simpl. congruence.
    + intros ([|b before] & after & E); simpl in E.
      * left. eauto.
      * right. exists before, after. congruence.
Qed.

(** [is_at_article], step by step. *)
Lemma is_at_article_result article s :
  is_at_article article s =
  match get_domain (url s) with
  | Raise e => (Raise e, s)
  | Ok home =>
      let s1 := mkstate (name s) (url s) (data s) (br s)
                        (calls s ++ [GetLocation]) in
      match br s with
      | [] => (Raise NoSuchWindowException, s1)
      | w :: _ =>
          match get_domain (Browser.location (Browser.shown w)) with
          | Raise e => (Raise e, s1)
          | Ok here =>
              if String.eqb home here
              then (Ok (PyStr.contains (PyStr.lower article)
                          (PyStr.lower (Browser.title (Browser.shown w)))),
                    mkstate (name s) (url s) (data s) (br s)
                            ((calls s ++ [GetLocation]) ++ [GetTitle]))
              else (Ok false, s1)
          end
      end
  end.
Proof.
  unfold is_at_article, bind, get, lift, get_location, get_title, on_br,
    Browser.get_location, Browser.get_title, Browser.on_active, ret.
  destruct s as [n u d b c]; simpl.
  destruct (get_domain u) as [home|e]; [|reflexivity].
  destruct b as [|w b]; simpl; [reflexivity|].
  destruct (get_domain (Browser.location (Browser.shown w))) as [here|e];
    [|reflexivity].
  destruct (String.eqb home here); simpl; [|reflexivity].
  destruct (PyStr.contains _ _); reflexivity.
Qed.

End ArticleFacts.

(** X26.  [is_at_article] returns true if and only if a browser is open,
    the domain of the robot's URL is the domain of the current location, and
    the lower-cased title contains the lower-cased article name.  When a
    browser is open and both domains are defined, a difference between them
    gives false after the location alone has been read, and a title without
    the name gives false; the title is read only when the domains agree. *)
Theorem is_at_article_spec :
  forall (article : string) (s : Robot.state),
    (fst (Robot.is_at_article article s) = Ok true <->
     exists w rest d,
       Robot.br s = w :: rest
       /\ get_domain (Robot.url s) = Ok d
       /\ get_domain (Browser.location (Browser.shown w)) = Ok d
       /\ Trace.occurs_in (PyStr.lower article)
                          (PyStr.lower (Browser.title (Browser.shown w))))
    /\ (forall w rest home here,
           Robot.br s = w :: rest ->
           get_domain (Robot.url s) = Ok home ->
           get_domain (Browser.location (Browser.shown w)) = Ok here ->
           (home <> here ->
            Robot.is_at_article article s
            = (Ok false,
               Robot.mkstate (Robot.name s) (Robot.url s) (Robot.data s)
                 (Robot.br s) (Robot.calls s ++ [Robot.GetLocation])))
           /\ (~ Trace.occurs_in (PyStr.lower article)
                   (PyStr.lower (Browser.title (Browser.shown w))) ->
               fst (Robot.is_at_article article s) = Ok false))
    /\ (forall evs,
           Robot.calls (snd (Robot.is_at_article article s))
           = (Robot.calls s ++ evs)%list ->
           In Robot.GetTitle evs ->
           exists w rest d,
             Robot.br s = w :: rest
             /\ get_domain (Robot.url s) = Ok d
             /\ get_domain (Browser.location (Browser.shown w)) = Ok d).
Proof.
  intros article s. rewrite is_at_article_result.
  split; [|split].
  - split.
    + destruct (get_domain (Robot.url s)) as [home|e]; [|discriminate].
      destruct (Robot.br s) as [|w rest]; [discriminate|].
      destruct (get_domain (Browser.location (Browser.shown w)))
        as [here|e] eqn:L; [|discriminate].
      destruct (String.eqb home here) eqn:E; [|discriminate].
      apply String.eqb_eq in E. subst here. simpl. intros H.
      exists w, rest, home. repeat split; [exact L|].
      apply contains_spec. congruence.
    + intros (w & rest & d & -> & -> & -> & H).
      rewrite String.eqb_refl. simpl.
      apply contains_spec in H. rewrite H. reflexivity.
  - intros w rest home here -> -> ->. split.
    + intros N. apply String.eqb_neq in N. rewrite N. reflexivity.
    + intros N. destruct (String.eqb home here); [|reflexivity]. simpl.
      destruct (PyStr.contains _ _) eqn:C; [|reflexivity].
      apply contains_spec in C. contradiction.
  - intros evs E I.
    destruct (get_domain (Robot.url s)) as [home|e].
    + destruct (Robot.br s) as [|w rest].
      * simpl in E. apply app_inv_head in E. subst evs.
        destruct I as [I|[]]. discriminate.
      * destruct (get_domain (Browser.location (Browser.shown w)))
          as [here|e] eqn:L.
        -- destruct (String.eqb home here) eqn:H.
           ++ apply String.eqb_eq in H. subst here. eauto 6.
           ++ simpl in E. apply app_inv_head in E. subst evs.
              destruct I as [I|[]]. discriminate.
        -- simpl in E. apply app_inv_head in E. subst evs.
           destruct I as [I|[]]. discriminate.
    + simpl in E. rewrite <- (app_nil_r (Robot.calls s)) in E at 1.
      apply app_inv_head in E. subst evs. destruct I.
Qed.

Lemma is_at_article_spec_witness :
  fst (Robot.is_at_article "Alan Turing" Demo.at_turing) = Ok true.
Proof.
  apply (proj2 (proj1 (is_at_article_spec "Alan Turing" Demo.at_turing))).
  exists (Browser.mkwindow 1 Demo.turing_page []), [], "wikipedia".
  repeat split.
  exists "", " - wikipedia". reflexivity.
Defined.

(** C4.  [is_at_article] does not answer false in every state where the
    robot is not at the article.  On the robot whose browser has just been
    opened, at [about:blank], it raises IndexError once the location has
    been read; so it does for every article name and every state whose
    browser shows a location without a dot, because [get_domain] of that
    location has no second component to return; and with no browser open
    it raises the NoSuchWindowException of [get_location].  In none of
    these states is the title read. *)
Theorem is_at_article_dotless_location :
  Robot.is_at_article "Alan Turing" Demo.opened
  = (Raise IndexError,
     Robot.mkstate "Test Robot" "https://www.wikipedia.org" []
       [Browser.mkwindow 1 Demo.blank_page []]
       [Robot.OpenAvailableBrowser; Robot.GetLocation])
  /\ (forall (article : string) (s : Robot.state) w rest home,
         Robot.br s = w :: rest ->
         get_domain (Robot.url s) = Ok home ->
         PyStr.has_char "." (Browser.location (Browser.shown w)) = false ->
         Robot.is_at_article article s
         = (Raise IndexError,
            Robot.mkstate (Robot.name s) (Robot.url s) (Robot.data s)
              (Robot.br s) (Robot.calls s ++ [Robot.GetLocation])))
  /\ (forall (article : string) (s : Robot.state) home,
         Robot.br s = [] ->
         get_domain (Robot.url s) = Ok home ->
         Robot.is_at_article article s
         = (Raise NoSuchWindowException,
            Robot.mkstate (Robot.name s) (Robot.url s) (Robot.data s)
              (Robot.br s) (Robot.calls s ++ [Robot.GetLocation]))).
Proof.
  split; [vm_compute; reflexivity|]. split.
  - intros article s w rest home B U L.
    rewrite is_at_article_result, U, B. unfold get_domain.
    rewrite (split_without_sep _ _ L). reflexivity.
  - intros article s home B U.
    rewrite is_at_article_result, U, B. reflexivity.
Qed.

Lemma is_at_article_dotless_location_witness :
  fst (Robot.is_at_article "Stephen Hawking"
         (Robot.mkstate "Test Robot" "https://www.wikipedia.org"
            [Demo.turing] [Browser.mkwindow 1 Demo.blank_page []] []))
  = Raise IndexError.
Proof.
  rewrite (proj1 (proj2 is_at_article_dotless_location) "Stephen Hawking"
             (Robot.mkstate "Test Robot" "https://www.wikipedia.org"
                [Demo.turing] [Browser.mkwindow 1 Demo.blank_page []] [])
             (Browser.mkwindow 1 Demo.blank_page []) [] "wikipedia");
    reflexivity.
Defined.

(* ------------------------------------------------------------------ *)
(** ** Calls and exceptions along a computation *)

Section CallFacts.
Import Robot Trace.

Lemma later_refl P s : later P s s.
Proof.
  repeat split. exists []. rewrite app_nil_r. split; reflexivity.
Qed.

Lemma later_trans P s1 s2 s3 : later P s1 s2 -> later P s2 s3 -> later P s1 s3.
Proof.
  intros (N1 & U1 & e1 & C1 & F1) (N2 & U2 & e2 & C2 & F2).
  repeat split; try congruence.
  exists (e1 ++ e2)%list. rewrite C2, C1, app_assoc, forallb_app, F1, F2.
  split; reflexivity.
Qed.

Lemma later_weaken (P Q : event -> bool) s s' :
  (forall e, P e = true -> Q e = true) -> later P s s' -> later Q s s'.
Proof.
  intros H (N & U & evs & C & F). repeat split; auto.
  exists evs. split; [exact C|].
  rewrite forallb_forall in *. auto.
Qed.

Lemma later_one (P : event -> bool) e n u d b b' c :
  P e = true -> later P (mkstate n u d b c) (mkstate n u d b' (c ++ [e])).
Proof.
  intros H. repeat split. exists [e]. simpl. rewrite H. auto.
Qed.

Lemma quiet_weaken {A : Type} (P Q : event -> bool) (m : M A) :
  (forall e, P e = true -> Q e = true) -> quiet P m -> quiet Q m.
Proof.
  intros H Hm s. destruct (Hm s) as [L D]. split; [|exact D].
  eapply later_weaken; eauto.
Qed.

Lemma quiet_ret {A : Type} P (a : A) : quiet P (ret a).
Proof. intros s. split; [apply later_refl | reflexivity]. Qed.

Lemma quiet_raise {A : Type} P e : quiet P (@raise A e).
Proof. intros s. split; [apply later_refl | reflexivity]. Qed.

Lemma quiet_lift {A : Type} P (r : result A) : quiet P (lift r).
Proof. intros s. split; [apply later_refl | reflexivity]. Qed.

Lemma quiet_get {A : Type} P (f : state -> A) : quiet P (get f).
Proof. intros s. split; [apply later_refl | reflexivity]. Qed.

Lemma quiet_on_br {A : Type} (P : event -> bool) e (o : Browser.op A) :
  P e = true -> quiet P (on_br e o).
Proof.
  intros H [n u d b c]. unfold on_br. simpl.
  destruct (o b) as [r b']. simpl. split; [|reflexivity].
  apply later_one. exact H.
Qed.

Lemma quiet_bind {A B : Type} P (m : M A) (k : A -> M B) :
  quiet P m -> (forall a, quiet P (k a)) -> quiet P (bind m k).
Proof.
  intros Hm Hk s. unfold bind. specialize (Hm s).
  destruct (m s) as [[a|e] s1]; simpl in Hm; [|exact Hm].
  destruct Hm as [L D]. destruct (Hk a s1) as [L' D'].
  split; [eapply later_trans; eauto | congruence].
Qed.







End CallFacts.

(* ------------------------------------------------------------------ *)
(** ** [get_content] *)

Ltac quiet_step :=
  first
    [ apply quiet_ret | apply quiet_raise | apply quiet_lift | apply quiet_get
    | apply quiet_on_br; reflexivity
    | apply quiet_bind; [|intros]
    | match goal with
      | |- Trace.quiet _ (if ?b then _ else _) => destruct b
      | |- Trace.quiet _ (match ?x with _ => _ end) => destruct x
      end ].


Section ContentFacts.
Import Robot Trace.
Variable web : Browser.Web.

Lemma on_page_browsing e : on_page e = true -> browsing e = true.
Proof. destruct e; simpl; auto. Qed.


Lemma quiet_is_at_article article : quiet on_page (is_at_article article).
Proof. unfold is_at_article, get_location, get_title. repeat quiet_step. Qed.


Lemma quiet_extract article : quiet on_page (extract_from_article article).
Proof.
  unfold extract_from_article, _get_date_of_birth, _get_date_of_death,
    _get_biography_date, _get_first_paragraph.
  repeat quiet_step.
Qed.


Lemma quiet_finish article : quiet on_page (finish web article).
Proof.
  unfold finish.
  apply quiet_bind; [quiet_step|intros].
  apply quiet_bind; [quiet_step|intros].
  apply quiet_bind; [apply quiet_is_at_article|intros].
  destruct (negb a1); [apply quiet_raise | apply quiet_extract].
Qed.

End ContentFacts.

Section GetContentFacts.
Import Robot Trace.
Variable web : Browser.Web.

Lemma bind_assoc {A B C : Type} (m : M A) (k : A -> M B) (h : B -> M C) s :
  bind (bind m k) h s = bind m (fun a => bind (k a) h) s.
Proof. unfold bind. destruct (m s) as [[a|e] s']; reflexivity. Qed.

Lemma bind_ok {A B : Type} (m : M A) (k : A -> M B) s a s' :
  m s = (Ok a, s') -> bind m k s = k a s'.
Proof. unfold bind. intros ->. reflexivity. Qed.

Lemma bind_raise {A B : Type} (m : M A) (k : A -> M B) s e s' :
  m s = (Raise e, s') -> bind m k s = (Raise e, s').
Proof. unfold bind. intros ->. reflexivity. Qed.

(** What is left of [get_content] once [reach] is through. *)
Lemma get_content_reach article s :
  get_content web article s =
  bind (reach web article)
       (fun _ =>
          bind (is_at_article article)
               (fun found =>
                  if negb found
                  then raise (RuntimeError "Could not find article")
                  else extract_from_article article)) s.
Proof.
  unfold get_content, reach, bind.
  destruct (is_browser_open s) as [[o|e] s1]; [|reflexivity].
  destruct ((if negb o then open_browser web else ret tt) s1)
    as [[[]|e] s2]; [|reflexivity].
  destruct (search_article web article s2) as [[[]|e] s3]; reflexivity.
Qed.

(** The first calls of [get_content]: the test for an open browser, the
    opening of one if there is none, and the home page. *)
Lemma get_content_start article s :
  exists s_c,
    get_content web article s = finish web article s_c
    /\ name s_c = name s /\ url s_c = url s /\ data s_c = data s
    /\ calls s_c
       = (calls s
          ++ GetBrowserIds
             :: match br s with [] => [OpenAvailableBrowser] | _ => [] end
          ++ [GoTo (url s)])%list.
Proof.
  destruct s as [n u d b c].
  unfold get_content, finish, search_article.
  rewrite (bind_ok _ _ _ _ _ (is_browser_open_result _)). simpl.
  destruct b as [|w b]; simpl negb; cbv iota.
  - rewrite (bind_ok _ _ _ _ _ (open_browser_result web _)). simpl.
    rewrite bind_assoc. erewrite bind_ok by reflexivity. simpl.
    rewrite bind_assoc. erewrite bind_ok by reflexivity.
    rewrite bind_assoc.
    eexists. split; [reflexivity|]. simpl.
    rewrite <- !app_assoc. auto.
  - erewrite bind_ok by reflexivity.
    rewrite bind_assoc. erewrite bind_ok by reflexivity. simpl.
    rewrite bind_assoc. erewrite bind_ok by reflexivity.
    rewrite bind_assoc.
    eexists. split; [reflexivity|]. simpl.
    rewrite <- !app_assoc. auto.
Qed.

Lemma quiet_get_content article : quiet browsing (get_content web article).
Proof.
  intros s.
  destruct (get_content_start article s) as (s_c & -> & N & U & D & C).
  destruct (quiet_finish web article s_c) as [(N' & U' & evs & C' & F) D'].
  split; [|congruence]. repeat split; try congruence.
  eexists. rewrite C', C, <- app_assoc. split; [reflexivity|].
  rewrite forallb_app. simpl. rewrite forallb_app. simpl.
  replace (forallb browsing evs) with true.
  - destruct (br s); reflexivity.
  - symmetry. rewrite forallb_forall in *.
    intros e I. apply on_page_browsing. auto.
Qed.


End GetContentFacts.



(* ------------------------------------------------------------------ *)
(** ** The batch: [run] *)

Section BatchFacts.
Import Robot Trace.
Variable web : Browser.Web.

Lemma for_articles_step article rest s record s1 :
  get_content web article s = (Ok record, s1) ->
  for_articles web (article :: rest) s
  = for_articles web rest
      (mkstate (name s1) (url s1) (data s1 ++ [record]) (br s1) (calls s1)).
Proof.
  intros G. simpl. rewrite (bind_ok _ _ _ _ _ G). reflexivity.
Qed.

Lemma for_articles_stop article rest s e s1 :
  get_content web article s = (Raise e, s1) ->
  for_articles web (article :: rest) s = (Raise e, s1).
Proof. intros G. simpl. apply bind_raise. exact G. Qed.

Lemma for_articles_app pre rest :
  forall s,
    for_articles web (pre ++ rest) s =
    match for_articles web pre s with
    | (Ok _, s1) => for_articles web rest s1
    | (Raise e, s1) => (Raise e, s1)
    end.
Proof.
  induction pre as [|a pre IH]; intros s; [reflexivity|].
  change ((a :: pre) ++ rest)%list with (a :: (pre ++ rest))%list.
  destruct (get_content web a s) as [[r|e] s1] eqn:G.
  - rewrite !(for_articles_step _ _ _ _ _ G). apply IH.
  - rewrite !(for_articles_stop _ _ _ _ _ G). reflexivity.
Qed.

(** The loop only browses, and adds one record per article done. *)
Lemma for_articles_later articles :
  forall s,
    later browsing s (snd (for_articles web articles s))
    /\ exists recs,
        data (snd (for_articles web articles s)) = (data s ++ recs)%list
        /\ (forall u, fst (for_articles web articles s) = Ok u ->
                      List.length recs = List.length articles).
Proof.
  induction articles as [|a l IH]; intros s.
  - split; [apply later_refl|]. exists []. simpl. rewrite app_nil_r. auto.
  - destruct (quiet_get_content web a s) as [L D].
    destruct (get_content web a s) as [[r|e] s1] eqn:G; simpl in L, D.
    + rewrite (for_articles_step _ _ _ _ _ G).
      destruct (IH (mkstate (name s1) (url s1) (data s1 ++ [r]) (br s1)
                            (calls s1))) as [L' (recs & D' & N)].
      split.
      * eapply later_trans; [exact L|].
        eapply later_trans; [|exact L'].
        repeat split. exists []. simpl. rewrite app_nil_r. auto.
      * exists (r :: recs). split.
        -- rewrite D'. simpl. rewrite D, <- app_assoc. reflexivity.
        -- intros u E. simpl. rewrite (N u E). reflexivity.
    + rewrite (for_articles_stop _ _ _ _ _ G). simpl.
      split; [exact L|]. exists []. rewrite app_nil_r.
      split; [exact D|discriminate].
Qed.

(** Every failure of the loop is the failure of one article, after the
    articles before it went through. *)
Lemma for_articles_failure articles :
  forall s e s',
    for_articles web articles s = (Raise e, s') ->
    exists pre article post s1,
      articles = (pre ++ article :: post)%list
      /\ for_articles web pre s = (Ok tt, s1)
      /\ get_content web article s1 = (Raise e, s').
Proof.
  induction articles as [|a l IH]; intros s e s' H; [discriminate|].
  destruct (get_content web a s) as [[r|e0] s1] eqn:G.
  - rewrite (for_articles_step _ _ _ _ _ G) in H.
    destruct (IH _ _ _ H) as (pre & article & post & s2 & -> & P & F).
    exists (a :: pre), article, post, s2. repeat split; [|exact F].
    rewrite (for_articles_step _ _ _ _ _ G). exact P.
  - rewrite (for_articles_stop _ _ _ _ _ G) in H. inversion H; subst.
    exists [], a, l, s. auto.
Qed.

Lemma instructions_result articles s :
  articles <> [] ->
  exists ev,
    announces ev
    /\ instructions articles s
       = (Ok tt, mkstate (name s) (url s) (data s) (br s) (calls s ++ [ev])).
Proof.
  intros N. destruct articles as [|a l]; [contradiction|].
  eexists. split; [|reflexivity]. reflexivity.
Qed.

Lemma run_result articles output_path s :
  articles <> [] ->
  run web articles output_path s =
  match for_articles web articles (snd (instructions articles s)) with
  | (Ok _, s1) => bind close_browser (fun _ => report web output_path) s1
  | (Raise _, s1) =>
      bind close_browser (fun _ => bind show_dialog_error (fun _ => ret tt)) s1
  end.
Proof.
  intros N. destruct articles as [|a l]; [contradiction|]. reflexivity.
Qed.

Lemma failure_path s1 :
  bind close_browser (fun _ => bind show_dialog_error (fun _ => ret tt)) s1
  = (Ok tt, mkstate (name s1) (url s1) (data s1) []
              (calls s1 ++ [CloseAllBrowsers; error_dialog s1])).
Proof.
  unfold bind, close_browser, show_dialog_error, show_dialog, call, on_br,
    get, ret, error_dialog. simpl. rewrite <- app_assoc. reflexivity.
Qed.

Lemma success_path output_path s1 :
  data s1 <> [] ->
  bind close_browser (fun _ => report web output_path) s1
  = (Ok tt, mkstate (name s1) (url s1) (data s1) []
              (calls s1
               ++ [CloseAllBrowsers;
                   HtmlToPdf (data s1) (Browser.today web) output_path;
                   completed_dialog s1 output_path])).
Proof.
  intros N. destruct s1 as [n u d b c]. simpl in N.
  destruct d as [|r l]; [contradiction|].
  cbv [bind close_browser report create_report show_dialog_completed
       show_dialog call on_br get ret completed_dialog
       Browser.close_all_browsers name url data br calls].
  rewrite <- !app_assoc. reflexivity.
Qed.

Lemma browsing_never_closes evs :
  forallb browsing evs = true ->
  filter closing evs = [].
Proof.
  induction evs as [|e evs IH]; simpl; [reflexivity|].
  intros H. apply andb_true_iff in H as [He H].
  destruct e; simpl in He; try discriminate; auto.
Qed.

End BatchFacts.

(** C1, as the code has it.  When an article fails after the articles
    before it went through, [run] processes no further article: it closes
    the browsers, shows the error dialog and returns, and up to then it has
    only shown the announcement and browsed, so no report is written.  The
    records gathered before the failure stay in [data]. *)
Theorem run_failure :
  forall (web : Browser.Web) (pre : list string) (article : string)
         (post : list string) (output_path : string)
         (s s1 s2 : Robot.state) (e : exn),
    Robot.for_articles web pre
      (snd (Robot.instructions (pre ++ article :: post) s)) = (Ok tt, s1) ->
    Robot.get_content web article s1 = (Raise e, s2) ->
    Robot.run web (pre ++ article :: post) output_path s
    = (Ok tt,
       Robot.mkstate (Robot.name s) (Robot.url s) (Robot.data s1) []
         (Robot.calls s2 ++ [Robot.CloseAllBrowsers; Trace.error_dialog s]))
    /\ (exists ev evs,
           Robot.calls s2 = (Robot.calls s ++ ev :: evs)%list
           /\ Trace.announces ev
           /\ forallb Trace.browsing evs = true)
    /\ (exists recs,
           Robot.data s1 = (Robot.data s ++ recs)%list
           /\ List.length recs = List.length pre).
Proof.
  intros web pre article post output_path s s1 s2 e P G.
  assert (N : (pre ++ article :: post)%list <> [])
    by (destruct pre; discriminate).
  rewrite (run_result web _ output_path s N).
  destruct (instructions_result (pre ++ article :: post)%list s N)
    as (ev & A & I).
  rewrite I in *. simpl snd in *.
  rewrite for_articles_app, P, (for_articles_stop _ _ _ _ _ _ G), failure_path.
  destruct (for_articles_later web pre
              (Robot.mkstate (Robot.name s) (Robot.url s) (Robot.data s)
                 (Robot.br s) (Robot.calls s ++ [ev])))
    as [L (recs & D & Len)].
  rewrite P in L, D, Len. simpl in L, D, Len.
  destruct L as (N1 & U1 & evs1 & C1 & F1). simpl in N1, U1, C1.
  destruct (quiet_get_content web article s1) as [(N2 & U2 & evs2 & C2 & F2) D2].
  rewrite G in N2, U2, C2, D2. simpl in N2, U2, C2, D2.
  split; [|split].
  - unfold Trace.error_dialog. rewrite N2, N1, U2, U1, D2. reflexivity.
  - exists ev, (evs1 ++ evs2)%list. split; [|split; [exact A|]].
    + rewrite C2, C1, <- !app_assoc. reflexivity.
    + rewrite forallb_app, F1, F2. reflexivity.
  - exists recs. split; [exact D | exact (Len tt eq_refl)].
Qed.

Lemma run_failure_witness :
  fst (Robot.run Demo.web (["Alan Turing"] ++ "Nobody" :: ["Isaac Newton"])
                 "report.pdf" Demo.robot) = Ok tt
  /\ Robot.br (snd (Robot.run Demo.web
                      (["Alan Turing"] ++ "Nobody" :: ["Isaac Newton"])
                      "report.pdf" Demo.robot)) = [].
Proof.
  assert (P : Robot.for_articles Demo.web ["Alan Turing"]
                (snd (Robot.instructions
                        (["Alan Turing"] ++ "Nobody" :: ["Isaac Newton"])
                        Demo.robot))
              = (Ok tt, Demo.after_turing))
    by (vm_compute; reflexivity).
  assert (G : Robot.get_content Demo.web "Nobody" Demo.after_turing
              = (Raise (RuntimeError "Could not find article"),
                 Demo.after_nobody))
    by (vm_compute; reflexivity).
  destruct (run_failure Demo.web ["Alan Turing"] "Nobody" ["Isaac Newton"]
              "report.pdf" Demo.robot Demo.after_turing Demo.after_nobody
              (RuntimeError "Could not find article") P G) as [H _].
  rewrite H. split; reflexivity.
Defined.

(** On a fresh robot, with the second of three articles not found, the
    record of the first article is still in [data] after [run] has given
    up. *)
Lemma run_keeps_partial_results :
  fst (Robot.run Demo.web ["Alan Turing"; "Nobody"; "Isaac Newton"]
                 "report.pdf" Demo.robot) = Ok tt
  /\ Robot.data Demo.robot = []
  /\ Robot.data (snd (Robot.run Demo.web
                        ["Alan Turing"; "Nobody"; "Isaac Newton"]
                        "report.pdf" Demo.robot)) = [Demo.turing].
Proof. repeat split; vm_compute; reflexivity. Qed.

(** C6.  For a non-empty list of articles [run] returns with no browser
    open, and the browsers are closed exactly once: after the announcement
    and the browsing, and before the error dialog when the loop failed, or
    before the report and the final dialog when it went through. *)
Theorem run_closes_once :
  forall (web : Browser.Web) (articles : list string) (output_path : string)
         (s : Robot.state),
    articles <> [] ->
    fst (Robot.run web articles output_path s) = Ok tt
    /\ Robot.br (snd (Robot.run web articles output_path s)) = []
    /\ (exists ev evs,
           Trace.announces ev
           /\ forallb Trace.browsing evs = true
           /\ Robot.calls (snd (Robot.run web articles output_path s))
              = (Robot.calls s
                 ++ ev :: evs
                 ++ Robot.CloseAllBrowsers
                    :: match fst (Robot.for_articles web articles
                                    (snd (Robot.instructions articles s))) with
                       | Raise _ => [Trace.error_dialog s]
                       | Ok _ =>
                           [Robot.HtmlToPdf
                              (Robot.data
                                 (snd (Robot.run web articles output_path s)))
                              (Browser.today web) output_path;
                            Trace.completed_dialog s output_path]
                       end)%list)
    /\ (forall new,
           Robot.calls (snd (Robot.run web articles output_path s))
           = (Robot.calls s ++ new)%list ->
           List.length (filter Trace.closing new) = 1%nat).
Proof.
  intros web articles output_path s N.
  rewrite (run_result web _ output_path s N).
  destruct (instructions_result articles s N) as (ev & A & I).
  rewrite I. simpl snd.
  destruct (for_articles_later web articles
              (Robot.mkstate (Robot.name s) (Robot.url s) (Robot.data s)
                 (Robot.br s) (Robot.calls s ++ [ev])))
    as [(N1 & U1 & evs & C1 & F1) (recs & D & Len)].
  assert (Announced : Trace.closing ev = false)
    by (destruct ev; simpl in A; try contradiction; reflexivity).
  destruct (Robot.for_articles web articles _) as [[[]|e] s1];
    simpl in N1, U1, C1, D, Len; simpl fst.
  - assert (Full : Robot.data s1 <> []).
    { rewrite D. specialize (Len tt eq_refl).
      destruct recs; [destruct articles; [contradiction|discriminate]|].
      destruct (Robot.data s); discriminate. }
    rewrite (success_path web output_path s1 Full). simpl.
    assert (E : (Robot.calls s1
                 ++ [Robot.CloseAllBrowsers;
                     Robot.HtmlToPdf (Robot.data s1) (Browser.today web)
                       output_path;
                     Trace.completed_dialog s1 output_path])%list
                = (Robot.calls s
                   ++ ev :: evs
                   ++ [Robot.CloseAllBrowsers;
                       Robot.HtmlToPdf (Robot.data s1) (Browser.today web)
                         output_path;
                       Trace.completed_dialog s output_path])%list).
    { unfold Trace.completed_dialog. rewrite C1, N1, <- !app_assoc. reflexivity. }
    rewrite E. repeat split.
    + exists ev, evs. auto.
    + intros new H. apply app_inv_head in H. subst new.
      simpl. rewrite Announced, filter_app, (browsing_never_closes _ F1).
      reflexivity.
  - rewrite failure_path. simpl.
    assert (E : (Robot.calls s1
                 ++ [Robot.CloseAllBrowsers; Trace.error_dialog s1])%list
                = (Robot.calls s
                   ++ ev :: evs
                   ++ [Robot.CloseAllBrowsers; Trace.error_dialog s])%list).
    { unfold Trace.error_dialog. rewrite C1, N1, <- !app_assoc. reflexivity. }
    rewrite E. repeat split.
    + exists ev, evs. auto.
    + intros new H. apply app_inv_head in H. subst new.
      simpl. rewrite Announced, filter_app, (browsing_never_closes _ F1).
      reflexivity.
Qed.

Lemma run_closes_once_witness :
  fst (Robot.run Demo.web ["Alan Turing"; "Isaac Newton"] "report.pdf"
                 Demo.robot) = Ok tt.
Proof.
  apply (run_closes_once Demo.web ["Alan Turing"; "Isaac Newton"] "report.pdf"
           Demo.robot).
  discriminate.
Defined.


(* ================================================================== *)
(** * Further properties *)

(* ------------------------------------------------------------------ *)
(** ** The age *)

Section AgeFacts.
Import Dates Scientist Calendar.

Lemma get_age_bounds b d n :
  (~ before d (add_years b n) /\ before d (add_years b (n + 1)))
  <-> n = get_age b d.
Proof.
  destruct b as [y m dd], d as [y' m' dd'].
  unfold before, add_years, precedes, get_age; simpl.
  destruct (m' <? m) eqn:Hm; destruct (m' =? m) eqn:He;
    destruct (dd' <? dd) eqn:Hd; simpl;
    rewrite ?Z.ltb_lt, ?Z.ltb_ge, ?Z.eqb_eq, ?Z.eqb_neq in *;
    split; intros; lia.
Qed.

Lemma get_age_nonneg b d : 0 <= get_age b d <-> ~ before d b.
Proof.
  destruct b as [y m dd], d as [y' m' dd'].
  unfold before, precedes, get_age; simpl.
  destruct (m' <? m) eqn:Hm; destruct (m' =? m) eqn:He;
    destruct (dd' <? dd) eqn:Hd; simpl;
    rewrite ?Z.ltb_lt, ?Z.ltb_ge, ?Z.eqb_eq, ?Z.eqb_neq in *;
    split; intros; lia.
Qed.

End AgeFacts.

(** X1.  The age is the number of whole years lived: it is the one number
    [n] for which the day of death is not before the [n]-th birthday and is
    before the next one. *)
Theorem get_age_whole_years :
  forall (birth death : Dates.date) (n : Z),
    (~ Calendar.before death (Calendar.add_years birth n)
     /\ Calendar.before death (Calendar.add_years birth (n + 1)))
    <-> n = Scientist.get_age birth death.
Proof. exact get_age_bounds. Qed.

(** X2.  The age is negative exactly when the date of death is an earlier
    day than the date of birth: [get_age] accepts such a pair and does not
    raise. *)
Theorem get_age_sign :
  forall birth death : Dates.date,
    Scientist.get_age birth death < 0 <-> Calendar.before death birth.
Proof.
  intros birth death. pose proof (get_age_nonneg birth death) as H.
  split.
  - intros N. destruct birth as [y m d], death as [y' m' d'].
    unfold Calendar.before, Scientist.precedes in *. simpl in *. lia.
  - intros B. destruct (Z.lt_ge_cases (Scientist.get_age birth death) 0) as [L|G];
      [exact L|]. apply H in G. contradiction.
Qed.

(* ------------------------------------------------------------------ *)
(** ** The domain of a URL *)

Section DomainFacts.
Import PyStr.

Lemma lower_char_idem c : lower_char (lower_char c) = lower_char c.
Proof. destruct c as [[] [] [] [] [] [] [] []]; reflexivity. Qed.


Lemma lower_idem s : lower (lower s) = lower s.
Proof.
  induction s as [|c s IH]; simpl; [reflexivity|].
  rewrite lower_char_idem, IH. reflexivity.
Qed.



Lemma get_domain_parts a b r :
  has_char "." a = false -> has_char "." b = false ->
  get_domain (a ++ "." ++ b) = Ok (lower b)
  /\ get_domain (a ++ "." ++ b ++ "." ++ r) = Ok (lower b).
Proof.
  intros Ha Hb. unfold get_domain. simpl append.
  rewrite !(split_at_first_sep _ _ _ Ha).
  rewrite (split_without_sep _ _ Hb), (split_at_first_sep _ _ _ Hb).
  split; reflexivity.
Qed.

End DomainFacts.



(** X4.  The domain is read between the first and the second dot only:
    the text before the first dot and all that follows the second one do
    not count, nor does the case of the letters. *)
Theorem get_domain_between_dots :
  forall a a' b b' r r' : string,
    PyStr.has_char "." a = false -> PyStr.has_char "." a' = false ->
    PyStr.has_char "." b = false -> PyStr.has_char "." b' = false ->
    PyStr.lower b = PyStr.lower b' ->
    get_domain (a ++ "." ++ b ++ "." ++ r) = get_domain (a' ++ "." ++ b' ++ "." ++ r')
    /\ get_domain (a ++ "." ++ b ++ "." ++ r) = get_domain (a' ++ "." ++ b').
Proof.
  intros a a' b b' r r' Ha Ha' Hb Hb' E.
  destruct (get_domain_parts a b r Ha Hb) as [_ ->].
  destruct (get_domain_parts a' b' r' Ha' Hb') as [-> ->].
  rewrite E. split; reflexivity.
Qed.

Lemma get_domain_between_dots_witness :
  get_domain ("https://www" ++ "." ++ "wikipedia" ++ "." ++ "org")
  = get_domain ("https://en" ++ "." ++ "Wikipedia" ++ "." ++ "org/wiki/Alan_Turing")
  /\ get_domain ("https://www" ++ "." ++ "wikipedia" ++ "." ++ "org")
     = get_domain ("https://en" ++ "." ++ "Wikipedia").
Proof.
  apply get_domain_between_dots; reflexivity.
Defined.

(* ------------------------------------------------------------------ *)
(** ** The article check and the case of letters *)

Section CaseFacts.
Import Robot Trace.

Lemma contains_empty h : PyStr.contains "" h = true.
Proof. destruct h; reflexivity. Qed.

Lemma is_at_article_same_lower a a' s :
  PyStr.lower a = PyStr.lower a' -> is_at_article a s = is_at_article a' s.
Proof. intros E. rewrite !is_at_article_result, E. reflexivity. Qed.

Lemma is_at_article_empty s :
  fst (is_at_article "" s) = Ok true <->
  exists w rest d,
    br s = w :: rest
    /\ get_domain (url s) = Ok d
    /\ get_domain (Browser.location (Browser.shown w)) = Ok d.
Proof.
  rewrite is_at_article_result. split.
  - destruct (get_domain (url s)) as [home|e]; [|discriminate].
    destruct (br s) as [|w rest]; [discriminate|].
    destruct (get_domain (Browser.location (Browser.shown w)))
      as [here|e] eqn:L; [|discriminate].
    destruct (String.eqb home here) eqn:E; [|discriminate].
    apply String.eqb_eq in E. subst here. eauto 6.
  - intros (w & rest & d & -> & -> & ->).
    rewrite String.eqb_refl. simpl. rewrite contains_empty. reflexivity.
Qed.

End CaseFacts.

(** X5.  The check does not look at the case of the article name: two
    names with the same lower-case form get the same answer after the same
    calls, and so does a name and its lower-case form. *)
Theorem is_at_article_ignores_case :
  forall (article article' : string) (s : Robot.state),
    PyStr.lower article = PyStr.lower article' ->
    Robot.is_at_article article s = Robot.is_at_article article' s
    /\ Robot.is_at_article (PyStr.lower article) s
       = Robot.is_at_article article' s.
Proof.
  intros article article' s E. split.
  - apply is_at_article_same_lower. exact E.
  - apply is_at_article_same_lower. rewrite lower_idem. exact E.
Qed.

Lemma is_at_article_ignores_case_witness :
  Robot.is_at_article "ALAN TURING" Demo.at_turing
  = Robot.is_at_article "Alan Turing" Demo.at_turing
  /\ Robot.is_at_article (PyStr.lower "ALAN TURING") Demo.at_turing
     = Robot.is_at_article "Alan Turing" Demo.at_turing.
Proof.
  apply is_at_article_ignores_case. reflexivity.
Defined.

(** X6.  For the empty article name the title does not matter: the check
    answers true exactly when a browser is open and the two domains are
    the same. *)
Theorem is_at_article_empty_name :
  forall s : Robot.state,
    fst (Robot.is_at_article "" s) = Ok true <->
    exists w rest d,
      Robot.br s = w :: rest
      /\ get_domain (Robot.url s) = Ok d
      /\ get_domain (Browser.location (Browser.shown w)) = Ok d.
Proof. exact is_at_article_empty. Qed.

(* ------------------------------------------------------------------ *)
(** ** Parentheses around a date *)

Section WrapperFacts.
Import PyStr Dates DateText.

Lemma endswith_app_one c s x : endswith c (s ++ String x "") = Ascii.eqb x c.
Proof.
  induction s as [|a s IH]; [reflexivity|].
  simpl append. destruct (s ++ String x "") eqn:E.
  - destruct s; discriminate.
  - change (endswith c (String a (String a0 s0)))
      with (endswith c (String a0 s0)).
    exact IH.
Qed.

Lemma drop_last_app_one s x : drop_last (s ++ String x "") = s.
Proof.
  induction s as [|a s IH]; [reflexivity|].
  simpl append. destruct (s ++ String x "") eqn:E.
  - destruct s; discriminate.
  - change (drop_last (String a (String a0 s0)))
      with (String a (drop_last (String a0 s0))).
    rewrite IH. reflexivity.
Qed.

Lemma append_assoc a b c : (a ++ b) ++ c = a ++ b ++ c.
Proof. induction a; simpl; congruence. Qed.

Lemma day_text_last d :
  day_text d = true ->
  exists t c, d = t ++ String c "" /\ Ascii.eqb c ")" = false.
Proof.
  intros H. destruct d as [|a [|b [|c d]]]; simpl in H; try discriminate.
  - exists "", a. split; [reflexivity|].
    apply (range_excludes _ _ _ _ H). left. reflexivity.
  - exists (String a ""), b. split; [reflexivity|].
    rewrite !orb_true_iff, !andb_true_iff in H.
    destruct H as [[[[_ H]|[_ H]]|[_ H]]|[_ H]];
      apply (range_excludes _ _ _ _ H); left; reflexivity.
Qed.

(** A text [strptime] accepts begins and ends with a digit. *)
Lemma strptime_ok_ends x d :
  strptime x = Ok d -> startswith "(" x = false /\ endswith ")" x = false.
Proof.
  intros H.
  apply strptime_ok_inv in H as (y & m & dd & -> & Hy & _ & Hd & _).
  split.
  - destruct y as [|a y]; simpl in Hy; [discriminate|].
    destruct y as [|b [|c [|e [|f y]]]]; try discriminate.
    simpl. rewrite !andb_true_iff in Hy. destruct Hy as [[[Ha _] _] _].
    apply (range_excludes _ _ _ _ Ha). left. reflexivity.
  - destruct (day_text_last _ Hd) as (t & c & -> & Hc).
    rewrite <- !append_assoc. rewrite endswith_app_one. exact Hc.
Qed.

Lemma parse_wrapped body l r :
  l = "" \/ l = "(" -> r = "" \/ r = ")" ->
  startswith "(" body = false -> endswith ")" body = false ->
  parse_biography_date (l ++ body ++ r) = strptime body.
Proof.
  intros [->| ->] [->| ->] Hs He; unfold parse_biography_date; simpl append;
    rewrite ?append_empty_r.
  - rewrite Hs, He. reflexivity.
  - assert (S : startswith "(" (body ++ ")") = false)
      by (destruct body; [reflexivity|exact Hs]).
    rewrite S, endswith_app_one, drop_last_app_one. reflexivity.
  - simpl. rewrite He. reflexivity.
  - simpl. rewrite endswith_app_one, drop_last_app_one. reflexivity.
Qed.

Lemma strptime_rejects x :
  startswith "(" x = true \/ endswith ")" x = true ->
  strptime x = Raise ValueError.
Proof.
  intros H. destruct (strptime x) as [d|e] eqn:E.
  - destruct (strptime_ok_ends _ _ E) as [S N].
    destruct H as [H|H]; congruence.
  - rewrite (strptime_raises _ _ E). reflexivity.
Qed.

Lemma parse_two_opening s :
  parse_biography_date ("((" ++ s) = Raise ValueError.
Proof.
  unfold parse_biography_date. simpl.
  destruct s as [|c s].
  - reflexivity.
  - match goal with |- context [if ?b then _ else _] => destruct b end;
      apply strptime_rejects; left; reflexivity.
Qed.

Lemma parse_two_closing s :
  parse_biography_date (s ++ "))") = Raise ValueError.
Proof.
  unfold parse_biography_date.
  assert (E : exists t,
             (if startswith "(" (s ++ "))") then drop_first (s ++ "))")
              else s ++ "))") = (t ++ ")") ++ ")").
  { destruct s as [|c s].
    - exists "". reflexivity.
    - simpl. destruct (Ascii.eqb c "(").
      + exists s. rewrite append_assoc. reflexivity.
      + exists (String c s). simpl. rewrite append_assoc. reflexivity. }
  destruct E as [t ->].
  rewrite endswith_app_one, drop_last_app_one. simpl.
  apply strptime_rejects. right. apply endswith_app_one.
Qed.

End WrapperFacts.

(** X7.  A text that neither starts with an opening parenthesis nor ends
    with a closing one is parsed the same bare, with either parenthesis
    alone, or with both; every text that parses on its own is such a
    text. *)
Theorem parse_biography_date_wrappers :
  (forall body l r : string,
      l = "" \/ l = "(" -> r = "" \/ r = ")" ->
      PyStr.startswith "(" body = false -> PyStr.endswith ")" body = false ->
      parse_biography_date (l ++ body ++ r) = Dates.strptime body)
  /\ (forall (body : string) (d : Dates.date),
         Dates.strptime body = Ok d ->
         PyStr.startswith "(" body = false /\ PyStr.endswith ")" body = false).
Proof. split; [exact parse_wrapped | exact strptime_ok_ends]. Qed.

Lemma parse_biography_date_wrappers_witness :
  parse_biography_date ("(" ++ "1954-06-07" ++ "") = Dates.strptime "1954-06-07".
Proof.
  apply (proj1 parse_biography_date_wrappers); auto; reflexivity.
Defined.

(** X8.  Only one parenthesis is removed on each side: a text with two
    opening parentheses at the start, or two closing ones at the end,
    never parses. *)
Theorem parse_biography_date_double_parentheses :
  forall s : string,
    parse_biography_date ("((" ++ s) = Raise ValueError
    /\ parse_biography_date (s ++ "))") = Raise ValueError.
Proof.
  intros s. split; [apply parse_two_opening | apply parse_two_closing].
Qed.

(* ------------------------------------------------------------------ *)
(** ** Dates printed and read back *)

Section RoundTripFacts.
Import Dates DateText Html Calendar.

Lemma checked_range (P : Z -> bool) (lo n : nat) :
  forallb (fun k => P (Z.of_nat k)) (seq lo n) = true ->
  forall z, Z.of_nat lo <= z < Z.of_nat (lo + n) -> P z = true.
Proof.
  intros H z Hz. rewrite forallb_forall in H.
  rewrite <- (Z2Nat.id z) by lia. apply H. apply in_seq. lia.
Qed.

Lemma year_printed y :
  1 <= y <= 9999 ->
  year_text (format_0d 4 y) = true /\ int (format_0d 4 y) = y.
Proof.
  intros H.
  pose (P := fun z => year_text (format_0d 4 z) && (int (format_0d 4 z) =? z)).
  assert (C : P y = true)
    by (apply (checked_range P 1 (Z.to_nat 9999)); [vm_compute; reflexivity | lia]).
  apply andb_true_iff in C as [C1 C2]. apply Z.eqb_eq in C2. auto.
Qed.

Lemma month_printed m :
  1 <= m <= 12 ->
  month_text (format_0d 2 m) = true /\ int (format_0d 2 m) = m.
Proof.
  intros H.
  pose (P := fun z => month_text (format_0d 2 z) && (int (format_0d 2 z) =? z)).
  assert (C : P m = true)
    by (apply (checked_range P 1 (Z.to_nat 12)); [vm_compute; reflexivity | lia]).
  apply andb_true_iff in C as [C1 C2]. apply Z.eqb_eq in C2. auto.
Qed.

Lemma day_printed d :
  1 <= d <= 31 ->
  day_text (format_0d 2 d) = true /\ int (format_0d 2 d) = d.
Proof.
  intros H.
  pose (P := fun z => day_text (format_0d 2 z) && (int (format_0d 2 z) =? z)).
  assert (C : P d = true)
    by (apply (checked_range P 1 (Z.to_nat 31)); [vm_compute; reflexivity | lia]).
  apply andb_true_iff in C as [C1 C2]. apply Z.eqb_eq in C2. auto.
Qed.

Lemma valid_bounds d :
  valid d ->
  1 <= year d <= 9999 /\ 1 <= month d <= 12 /\ 1 <= day d <= 31.
Proof.
  unfold valid, make_date.
  destruct ((1 <=? year d) && (year d <=? 9999) && (1 <=? month d)
            && (month d <=? 12) && (1 <=? day d)
            && (day d <=? days_in_month (year d) (month d))) eqn:C;
    [|discriminate].
  intros _. rewrite !andb_true_iff, !Z.leb_le in C.
  pose proof (days_in_month_le (year d) (month d)). lia.
Qed.

Lemma isoformat_read d : valid d -> strptime (isoformat d) = Ok d.
Proof.
  intros V. destruct (valid_bounds d V) as (Hy & Hm & Hd).
  destruct (year_printed _ Hy) as [Ty Iy].
  destruct (month_printed _ Hm) as [Tm Im].
  destruct (day_printed _ Hd) as [Td Id].
  unfold isoformat. rewrite (strptime_text _ _ _ Ty Tm Td), Iy, Im, Id.
  exact V.
Qed.

End RoundTripFacts.

(** X9.  A date of the calendar, printed the way the report prints it
    ([str] of the date), is read back by the parser of the biography table
    as the same date, bare or in parentheses. *)
Theorem isoformat_round_trip :
  forall d : Dates.date,
    Calendar.valid d ->
    parse_biography_date (Html.isoformat d) = Ok d
    /\ parse_biography_date ("(" ++ Html.isoformat d ++ ")") = Ok d.
Proof.
  intros d V. pose proof (isoformat_read d V) as R.
  destruct (strptime_ok_ends _ _ R) as [S E].
  split.
  - rewrite <- R, <- (parse_wrapped (Html.isoformat d) "" "") by auto.
    simpl. rewrite append_empty_r. reflexivity.
  - rewrite <- R. apply parse_wrapped; auto.
Qed.

Lemma isoformat_round_trip_witness :
  parse_biography_date (Html.isoformat (Dates.mkdate 2024 2 29))
  = Ok (Dates.mkdate 2024 2 29)
  /\ parse_biography_date ("(" ++ Html.isoformat (Dates.mkdate 2024 2 29) ++ ")")
     = Ok (Dates.mkdate 2024 2 29).
Proof.
  apply isoformat_round_trip. reflexivity.
Defined.

(* ------------------------------------------------------------------ *)
(** ** [extract_from_article] *)

Section ExtractFacts.
Import Robot Reads.

Lemma get_biography_date_result header s :
  _get_biography_date header s =
  (match br s with
   | [] => Raise NoSuchWindowException
   | w :: _ =>
       match Browser.find (Browser.shown w) (_biography_lookup header) with
       | None => Raise (ElementNotFound (_biography_lookup header))
       | Some e =>
           match Browser.attribute e "textContent" with
           | None => Raise AttributeError
           | Some t => parse_biography_date t
           end
       end
   end,
   mkstate (name s) (url s) (data s) (br s)
     (calls s ++ [GetElementAttribute (_biography_lookup header) "textContent"])).
Proof.
  destruct s as [n u d b c].
  unfold _get_biography_date, bind, on_br, Browser.get_element_attribute,
    Browser.on_element, Browser.on_active, raise, lift. simpl.
  destruct b as [|w b]; [reflexivity|].
  destruct (Browser.find (Browser.shown w) (_biography_lookup header)) as [e|];
    [|reflexivity].
  simpl. destruct (Browser.attribute e "textContent"); reflexivity.
Qed.

Lemma get_first_paragraph_result s :
  _get_first_paragraph s =
  (match br s with
   | [] => Raise NoSuchWindowException
   | w :: _ =>
       match Browser.find (Browser.shown w) paragraph_locator with
       | None => Raise (ElementNotFound paragraph_locator)
       | Some e => Ok (Browser.text e)
       end
   end,
   mkstate (name s) (url s) (data s) (br s)
     (calls s ++ [GetText paragraph_locator])).
Proof.
  destruct s as [n u d b c].
  unfold _get_first_paragraph, on_br, Browser.get_text,
    Browser.on_element, Browser.on_active. simpl.
  destruct b as [|w b]; [reflexivity|].
  match goal with
  | |- context [Browser.find ?p ?l] => destruct (Browser.find p l) eqn:F
  end;
    change (Browser.find (Browser.shown w) paragraph_locator) with
      (Browser.find (Browser.shown w)
         ("xpath://div[@id=" ++ dq ++ "bodyContent" ++ dq ++ "]"
          ++ "//p[not(contains(@class, " ++ dq ++ "mw-empty-elt" ++ dq
          ++ "))]"));
    simpl; rewrite F; reflexivity.
Qed.

(** The outcome of the three reads, one after the other. *)
Lemma extract_result article s :
  extract_from_article article s =
  match _get_biography_date "Born" s with
  | (Raise e, _) => (Raise e, after_reads s 1)
  | (Ok born, _) =>
      match _get_biography_date "Died" (after_reads s 1) with
      | (Raise e, _) => (Raise e, after_reads s 2)
      | (Ok died, _) =>
          match _get_first_paragraph (after_reads s 2) with
          | (Raise e, _) => (Raise e, after_reads s 3)
          | (Ok text, _) =>
              (Ok (Scientist.init article born died text), after_reads s 3)
          end
      end
  end.
Proof.
  unfold extract_from_article, _get_date_of_birth, _get_date_of_death, bind.
  rewrite (get_biography_date_result "Born" s).
  match goal with |- context [match ?r with Ok _ => _ | Raise _ => _ end] =>
    destruct r as [born|e] end; [|reflexivity].
  change (mkstate (name s) (url s) (data s) (br s)
            (calls s ++ [GetElementAttribute (_biography_lookup "Born") "textContent"]))
    with (after_reads s 1).
  rewrite (get_biography_date_result "Died" (after_reads s 1)).
  assert (E2 : mkstate (name (after_reads s 1)) (url (after_reads s 1))
                 (data (after_reads s 1)) (br (after_reads s 1))
                 (calls (after_reads s 1)
                  ++ [GetElementAttribute (_biography_lookup "Died") "textContent"])
               = after_reads s 2)
    by (unfold after_reads; simpl; rewrite <- app_assoc; reflexivity).
  rewrite E2.
  match goal with |- context [match ?r with Ok _ => _ | Raise _ => _ end] =>
    destruct r as [died|e] end; [|reflexivity].
  rewrite (get_first_paragraph_result (after_reads s 2)).
  assert (E3 : mkstate (name (after_reads s 2)) (url (after_reads s 2))
                 (data (after_reads s 2)) (br (after_reads s 2))
                 (calls (after_reads s 2) ++ [GetText paragraph_locator])
               = after_reads s 3)
    by (unfold after_reads; simpl; rewrite <- app_assoc; reflexivity).
  rewrite E3.
  match goal with |- context [match ?r with Ok _ => _ | Raise _ => _ end] =>
    destruct r as [text|e] end; reflexivity.
Qed.

End ExtractFacts.

(** X10.  [extract_from_article] returns a record exactly when a browser
    is open and its page has the three elements, with [textContent] on the
    two dates, and both dates parse; the record then carries the name it
    was asked for, the two dates, the age computed from them and the text
    of the paragraph as it is. *)
Theorem extract_from_article_success :
  forall (article : string) (s : Robot.state) (r : Scientist.WikiScientist),
    fst (Robot.extract_from_article article s) = Ok r <->
    exists w rest tb td p db dd,
      Robot.br s = w :: rest
      /\ Reads.text_content (Browser.shown w) Reads.born_locator = Some tb
      /\ Reads.text_content (Browser.shown w) Reads.died_locator = Some td
      /\ Reads.text_at (Browser.shown w) Reads.paragraph_locator = Some p
      /\ parse_biography_date tb = Ok db
      /\ parse_biography_date td = Ok dd
      /\ r = Scientist.init article db dd p.
Proof.
  intros article s r.
  rewrite extract_result, !get_biography_date_result,
    get_first_paragraph_result.
  unfold Reads.text_content, Reads.text_at, Reads.born_locator,
    Reads.died_locator. simpl Robot.br.
  split.
  - destruct (Robot.br s) as [|w rest]; [discriminate|].
    destruct (Browser.find (Browser.shown w) (Robot._biography_lookup "Born"))
      as [eb|] eqn:Fb; [|discriminate].
    destruct (Browser.attribute eb "textContent") as [tb|] eqn:Ab;
      [|discriminate].
    destruct (parse_biography_date tb) as [db|] eqn:Pb; [|discriminate].
    destruct (Browser.find (Browser.shown w) (Robot._biography_lookup "Died"))
      as [ed|] eqn:Fd; [|discriminate].
    destruct (Browser.attribute ed "textContent") as [td|] eqn:Ad;
      [|discriminate].
    destruct (parse_biography_date td) as [dd|] eqn:Pd; [|discriminate].
    destruct (Browser.find (Browser.shown w) Reads.paragraph_locator)
      as [ep|] eqn:Fp; [|discriminate].
    simpl. intros E. injection E as <-.
    exists w, rest, tb, td, (Browser.text ep), db, dd.
    rewrite Fb, Fd, Fp. auto 10.
  - intros (w & rest & tb & td & p & db & dd & -> & Hb & Hd & Hp & Pb & Pd & ->).
    destruct (Browser.find (Browser.shown w) (Robot._biography_lookup "Born"))
      as [eb|]; [|discriminate].
    rewrite Hb, Pb.
    destruct (Browser.find (Browser.shown w) (Robot._biography_lookup "Died"))
      as [ed|]; [|discriminate].
    rewrite Hd, Pd.
    destruct (Browser.find (Browser.shown w) Reads.paragraph_locator)
      as [ep|]; [|discriminate].
    injection Hp as <-. reflexivity.
Qed.

Lemma extract_from_article_success_witness :
  fst (Robot.extract_from_article "Alan Turing" Demo.at_turing) = Ok Demo.turing.
Proof.
  apply (proj2 (extract_from_article_success "Alan Turing" Demo.at_turing
                  Demo.turing)).
  exists (Browser.mkwindow 1 Demo.turing_page []), [],
         "1912-06-23", "(1954-06-07)", "Alan Mathison Turing ...",
         (Dates.mkdate 1912 6 23), (Dates.mkdate 1954 6 7).
  repeat split; vm_compute; reflexivity.
Defined.

(** X11.  [extract_from_article] only reads: it makes the first one, two or
    three of its reads, in the order born, died, paragraph, and changes
    nothing else of the robot; when it stops before the third read it has
    raised, and an error while reading the date of birth is its result
    after that one read. *)
Theorem extract_from_article_reads :
  forall (article : string) (s : Robot.state),
    (exists k,
        (1 <= k <= 3)%nat
        /\ snd (Robot.extract_from_article article s) = Reads.after_reads s k
        /\ ((k < 3)%nat ->
            exists e, fst (Robot.extract_from_article article s) = Raise e))
    /\ (forall e,
           fst (Robot._get_biography_date "Born" s) = Raise e ->
           Robot.extract_from_article article s
           = (Raise e, Reads.after_reads s 1)).
Proof.
  intros article s. rewrite extract_result. split.
  - destruct (Robot._get_biography_date "Born" s) as [[born|e] s1].
    + destruct (Robot._get_biography_date "Died" (Reads.after_reads s 1))
        as [[died|e] s2].
      * destruct (Robot._get_first_paragraph (Reads.after_reads s 2))
          as [[text|e] s3];
          (exists 3%nat; split; [lia|split; [reflexivity|lia]]).
      * exists 2%nat. split; [lia|]. split; [reflexivity|].
        intros _. eexists. reflexivity.
    + exists 1%nat. split; [lia|]. split; [reflexivity|].
      intros _. eexists. reflexivity.
  - intros e. destruct (Robot._get_biography_date "Born" s) as [[born|e'] s1];
      simpl; [discriminate|]. intros E. injection E as ->. reflexivity.
Qed.

(* ------------------------------------------------------------------ *)
(** ** The browsers during [get_content] *)

Section BrowserFacts.
Import Robot Trace Reads.
Variable web : Browser.Web.

Lemma keeps_ret {A : Type} (a : A) : keeps_browsers (ret a).
Proof. intros s. reflexivity. Qed.

Lemma keeps_raise {A : Type} e : keeps_browsers (@raise A e).
Proof. intros s. reflexivity. Qed.

Lemma keeps_lift {A : Type} (r : result A) : keeps_browsers (lift r).
Proof. intros s. reflexivity. Qed.

Lemma keeps_get {A : Type} (f : state -> A) : keeps_browsers (get f).
Proof. intros s. reflexivity. Qed.

Lemma keeps_bind {A B : Type} (m : M A) (k : A -> M B) :
  keeps_browsers m -> (forall a, keeps_browsers (k a)) ->
  keeps_browsers (bind m k).
Proof.
  intros Hm Hk s. unfold bind. specialize (Hm s).
  destruct (m s) as [[a|e] s1]; simpl in Hm; [|exact Hm].
  rewrite Hk. exact Hm.
Qed.

Lemma keeps_on_active {A : Type} e
      (f : Browser.window -> result A * Browser.window) :
  (forall w, Browser.id (snd (f w)) = Browser.id w) ->
  keeps_browsers (on_br e (Browser.on_active f)).
Proof.
  intros H [n u d b c]. unfold on_br, Browser.on_active. simpl.
  destruct b as [|w b]; [reflexivity|].
  specialize (H w). destruct (f w) as [r w']. simpl in *. rewrite H.
  reflexivity.
Qed.

Lemma keeps_on_element {A : Type} e locator
      (f : Browser.window -> Browser.element -> result A * Browser.window) :
  (forall w x, Browser.id (snd (f w x)) = Browser.id w) ->
  keeps_browsers (on_br e (Browser.on_element locator f)).
Proof.
  intros H. apply keeps_on_active. intros w.
  destruct (Browser.find (Browser.shown w) locator); [apply H|reflexivity].
Qed.

Lemma keeps_search article : keeps_browsers (search_article web article).
Proof.
  unfold search_article, Browser.go_to, Browser.input_text,
    Browser.click_button.
  apply keeps_bind; [apply keeps_get|intros].
  apply keeps_bind; [apply keeps_on_active; reflexivity|intros].
  apply keeps_bind; [apply keeps_on_element; reflexivity|intros].
  apply keeps_on_element; reflexivity.
Qed.

Lemma keeps_is_at_article article : keeps_browsers (is_at_article article).
Proof.
  intros s. rewrite is_at_article_result.
  destruct (get_domain (url s)); [|reflexivity].
  destruct (br s) as [|w rest]; [reflexivity|].
  destruct (get_domain _); [|reflexivity].
  destruct (String.eqb _ _); reflexivity.
Qed.

Lemma keeps_extract article : keeps_browsers (extract_from_article article).
Proof.
  intros s.
  rewrite extract_result.
  destruct (_get_biography_date "Born" s) as [[born|e] s1]; [|reflexivity].
  destruct (_get_biography_date "Died" (after_reads s 1)) as [[died|e] s2];
    [|reflexivity].
  destruct (_get_first_paragraph (after_reads s 2)) as [[text|e] s3];
    reflexivity.
Qed.

Lemma get_content_browsers article s :
  map Browser.id (br (snd (get_content web article s)))
  = match br s with
    | [] => [1%nat]
    | _ => map Browser.id (br s)
    end.
Proof.
  assert (K : keeps_browsers
                (bind (search_article web article)
                   (fun _ =>
                      bind (is_at_article article)
                        (fun found =>
                           if negb found
                           then raise (RuntimeError "Could not find article")
                           else extract_from_article article)))).
  { apply keeps_bind; [apply keeps_search|intros].
    apply keeps_bind; [apply keeps_is_at_article|intros].
    destruct (negb a0); [apply keeps_raise|apply keeps_extract]. }
  unfold get_content.
  rewrite (bind_ok _ _ _ _ _ (is_browser_open_result s)).
  destruct (br s) as [|w rest]; simpl negb; cbv iota.
  - rewrite (bind_ok _ _ _ _ _ (open_browser_result web _)).
    rewrite K. reflexivity.
  - erewrite bind_ok by reflexivity. rewrite K. reflexivity.
Qed.

End BrowserFacts.

(** X12.  [get_content] never closes a browser, whatever its outcome: the
    browsers open before it are open after it, and when none was open
    there is exactly one, numbered 1. *)
Theorem get_content_keeps_browser_open :
  forall (web : Browser.Web) (article : string) (s : Robot.state),
    map Browser.id (Robot.br (snd (Robot.get_content web article s)))
    = match Robot.br s with
      | [] => [1%nat]
      | _ => map Browser.id (Robot.br s)
      end.
Proof. exact get_content_browsers. Qed.

(* ------------------------------------------------------------------ *)
(** ** The records of a batch *)

Section RecordFacts.
Import Robot Trace Reads.
Variable web : Browser.Web.

Lemma get_content_name article s r s1 :
  get_content web article s = (Ok r, s1) -> Scientist.name r = article.
Proof.
  intros H. rewrite get_content_reach in H. unfold bind in H.
  destruct (reach web article s) as [[[]|e] s2]; [|discriminate].
  destruct (is_at_article article s2) as [[[]|e] s3]; try discriminate.
  simpl in H. rewrite extract_result in H.
  destruct (_get_biography_date "Born" s3) as [[born|e] s4]; [|discriminate].
  destruct (_get_biography_date "Died" (after_reads s3 1)) as [[died|e] s5];
    [|discriminate].
  destruct (_get_first_paragraph (after_reads s3 2)) as [[text|e] s6];
    [|discriminate].
  injection H as <- _. reflexivity.
Qed.

Lemma for_articles_names articles :
  forall s s1,
    for_articles web articles s = (Ok tt, s1) ->
    exists recs,
      data s1 = (data s ++ recs)%list /\ map Scientist.name recs = articles.
Proof.
  induction articles as [|a l IH]; intros s s1 H.
  - injection H as <-. exists []. rewrite app_nil_r. auto.
  - destruct (get_content web a s) as [[r|e] s2] eqn:G.
    + rewrite (for_articles_step _ _ _ _ _ _ G) in H.
      destruct (IH _ _ H) as (recs & D & N). simpl in D.
      destruct (quiet_get_content web a s) as [_ D2].
      rewrite G in D2. simpl in D2.
      exists (r :: recs). split.
      * rewrite D, D2, <- app_assoc. reflexivity.
      * simpl. rewrite N, (get_content_name _ _ _ _ G). reflexivity.
    + rewrite (for_articles_stop _ _ _ _ _ _ G) in H. discriminate.
Qed.

Lemma run_success articles output_path s s1 :
  articles <> [] ->
  for_articles web articles (snd (instructions articles s)) = (Ok tt, s1) ->
  exists recs,
    map Scientist.name recs = articles
    /\ run web articles output_path s
       = (Ok tt,
          mkstate (name s) (url s) (data s ++ recs) []
            (calls s1
             ++ [CloseAllBrowsers;
                 HtmlToPdf (data s ++ recs) (Browser.today web) output_path;
                 completed_dialog s output_path])).
Proof.
  intros N L.
  destruct (for_articles_names _ _ _ L) as (recs & D & Names).
  destruct (for_articles_later web articles (snd (instructions articles s)))
    as [(N1 & U1 & _) _].
  rewrite L in N1, U1. simpl in N1, U1.
  destruct (instructions_result articles s N) as (ev & _ & I).
  rewrite I in D, N1, U1. simpl in D, N1, U1.
  exists recs. split; [exact Names|].
  rewrite (run_result web _ output_path s N), L.
  assert (Full : data s1 <> []).
  { rewrite D. destruct recs; [|destruct (data s); discriminate].
    destruct articles; [contradiction|discriminate]. }
  rewrite (success_path web output_path s1 Full).
  unfold completed_dialog. rewrite N1, U1, D. reflexivity.
Qed.

Lemma first_failure articles s e s' :
  for_articles web articles s = (Raise e, s') ->
  exists pre article post s1 recs,
    articles = (pre ++ article :: post)%list
    /\ for_articles web pre s = (Ok tt, s1)
    /\ get_content web article s1 = (Raise e, s')
    /\ data s' = (data s ++ recs)%list
    /\ map Scientist.name recs = pre.
Proof.
  intros H.
  destruct (for_articles_failure web _ _ _ _ H)
    as (pre & article & post & s1 & E & P & G).
  destruct (for_articles_names _ _ _ P) as (recs & D & N).
  destruct (quiet_get_content web article s1) as [_ D2].
  rewrite G in D2. simpl in D2.
  exists pre, article, post, s1, recs. repeat split; try assumption.
  congruence.
Qed.

Lemma report_empty output_path s :
  data s = [] -> report web output_path s = (Raise AssertionError, s).
Proof.
  intros E. unfold report, create_report, bind, get. simpl.
  rewrite E. reflexivity.
Qed.

End RecordFacts.

(** X13.  When every article goes through, [run] hands the records to the
    report in the order of the articles, one per article and under the name
    that was asked for, after the records the robot held before; the same
    list is in [data] afterwards, and the last calls are the closing of the
    browsers, the report and the final dialog. *)
Theorem run_reports_in_order :
  forall (web : Browser.Web) (articles : list string) (output_path : string)
         (s s1 : Robot.state),
    articles <> [] ->
    Robot.for_articles web articles (snd (Robot.instructions articles s))
    = (Ok tt, s1) ->
    exists recs,
      map Scientist.name recs = articles
      /\ Robot.run web articles output_path s
         = (Ok tt,
            Robot.mkstate (Robot.name s) (Robot.url s)
              (Robot.data s ++ recs) []
              (Robot.calls s1
               ++ [Robot.CloseAllBrowsers;
                   Robot.HtmlToPdf (Robot.data s ++ recs) (Browser.today web)
                     output_path;
                   Trace.completed_dialog s output_path])).
Proof. exact run_success. Qed.

Lemma run_reports_in_order_witness :
  exists recs,
    map Scientist.name recs = ["Alan Turing"; "Isaac Newton"]
    /\ Robot.run Demo.web ["Alan Turing"; "Isaac Newton"] "report.pdf" Demo.robot
       = (Ok tt,
          Robot.mkstate (Robot.name Demo.robot) (Robot.url Demo.robot)
            (Robot.data Demo.robot ++ recs) []
            (Robot.calls Demo.both_done
             ++ [Robot.CloseAllBrowsers;
                 Robot.HtmlToPdf (Robot.data Demo.robot ++ recs)
                   (Browser.today Demo.web) "report.pdf";
                 Trace.completed_dialog Demo.robot "report.pdf"])).
Proof.
  apply (run_reports_in_order Demo.web ["Alan Turing"; "Isaac Newton"]
           "report.pdf" Demo.robot Demo.both_done).
  - discriminate.
  - vm_compute. reflexivity.
Defined.

(** X14.  A robot keeps its records from one batch to the next: after two
    batches that both go through, the second report lists the records of
    the first batch before those of the second. *)
Theorem run_twice_accumulates :
  forall (web : Browser.Web) (first second : list string)
         (path1 path2 : string) (s : Robot.state),
    first <> [] -> second <> [] ->
    fst (Robot.for_articles web first (snd (Robot.instructions first s)))
    = Ok tt ->
    fst (Robot.for_articles web second
           (snd (Robot.instructions second
                   (snd (Robot.run web first path1 s))))) = Ok tt ->
    exists recs,
      map Scientist.name recs = (first ++ second)%list
      /\ Robot.data (snd (Robot.run web second path2
                            (snd (Robot.run web first path1 s))))
         = (Robot.data s ++ recs)%list
      /\ In (Robot.HtmlToPdf (Robot.data s ++ recs) (Browser.today web) path2)
            (Robot.calls (snd (Robot.run web second path2
                                 (snd (Robot.run web first path1 s))))).
Proof.
  intros web first second path1 path2 s N1 N2 L1 L2.
  destruct (Robot.for_articles web first (snd (Robot.instructions first s)))
    as [r1 t1] eqn:E1.
  simpl in L1. subst r1.
  destruct (run_success web first path1 s t1 N1 E1) as (recs1 & Names1 & R1).
  rewrite R1 in *. simpl snd in *.
  destruct (Robot.for_articles web second _) as [r2 t2] eqn:E2.
  simpl in L2. subst r2.
  destruct (run_success web second path2 _ t2 N2 E2) as (recs2 & Names2 & R2).
  rewrite R2. simpl.
  exists (recs1 ++ recs2)%list. rewrite map_app, Names1, Names2, app_assoc.
  repeat split. apply in_or_app. right. right. left. reflexivity.
Qed.

Lemma run_twice_accumulates_witness :
  exists recs,
    map Scientist.name recs = (["Alan Turing"] ++ ["Isaac Newton"])%list
    /\ Robot.data (snd (Robot.run Demo.web ["Isaac Newton"] "second.pdf"
                          (snd (Robot.run Demo.web ["Alan Turing"] "first.pdf"
                                  Demo.robot))))
       = (Robot.data Demo.robot ++ recs)%list
    /\ In (Robot.HtmlToPdf (Robot.data Demo.robot ++ recs)
             (Browser.today Demo.web) "second.pdf")
          (Robot.calls (snd (Robot.run Demo.web ["Isaac Newton"] "second.pdf"
                               (snd (Robot.run Demo.web ["Alan Turing"]
                                       "first.pdf" Demo.robot))))).
Proof.
  apply run_twice_accumulates;
    try discriminate; vm_compute; reflexivity.
Defined.

(** X15.  The loop stops at the first article that fails and hands on the
    exception of that article; [data] then holds, after what it held
    before, the records of the articles that came first, in their order. *)
Theorem for_articles_first_failure :
  forall (web : Browser.Web) (articles : list string)
         (s s' : Robot.state) (e : exn),
    Robot.for_articles web articles s = (Raise e, s') ->
    exists pre article post s1 recs,
      articles = (pre ++ article :: post)%list
      /\ Robot.for_articles web pre s = (Ok tt, s1)
      /\ Robot.get_content web article s1 = (Raise e, s')
      /\ Robot.data s' = (Robot.data s ++ recs)%list
      /\ map Scientist.name recs = pre.
Proof. intros web articles s s' e. apply first_failure. Qed.

Lemma for_articles_first_failure_witness :
  exists pre article post s1 recs,
    ["Alan Turing"; "Nobody"; "Isaac Newton"] = (pre ++ article :: post)%list
    /\ Robot.for_articles Demo.web pre Demo.announced = (Ok tt, s1)
    /\ Robot.get_content Demo.web article s1
       = (Raise (RuntimeError "Could not find article"), Demo.after_nobody)
    /\ Robot.data Demo.after_nobody = (Robot.data Demo.announced ++ recs)%list
    /\ map Scientist.name recs = pre.
Proof.
  apply (for_articles_first_failure Demo.web).
  vm_compute. reflexivity.
Defined.

(** X16.  With no record in [data], [report] raises the assertion of
    [create_html_report] before anything is written: no file, no dialog,
    the robot unchanged. *)
Theorem report_without_records :
  forall (web : Browser.Web) (output_path : string) (s : Robot.state),
    Robot.data s = [] ->
    Robot.report web output_path s = (Raise AssertionError, s)
    /\ Html.create_html_report (Robot.data s) (Browser.today web)
       = Raise AssertionError.
Proof.
  intros web output_path s E. split; [apply report_empty; exact E|].
  rewrite E. reflexivity.
Qed.

Lemma report_without_records_witness :
  Robot.report Demo.web "report.pdf" Demo.robot = (Raise AssertionError, Demo.robot)
  /\ Html.create_html_report (Robot.data Demo.robot) (Browser.today Demo.web)
     = Raise AssertionError.
Proof.
  apply report_without_records. reflexivity.
Defined.

(* ------------------------------------------------------------------ *)
(** ** The report in HTML *)

Section HtmlFacts.
Import Html Trace.

Lemma occurs_in_refl x : occurs_in x x.
Proof. exists "", "". simpl. rewrite append_empty_r. reflexivity. Qed.

Lemma occurs_in_app_r x a b : occurs_in x b -> occurs_in x (a ++ b).
Proof.
  intros (p & q & ->). exists (a ++ p), q. rewrite append_assoc. reflexivity.
Qed.

Lemma occurs_in_app_l x a b : occurs_in x a -> occurs_in x (a ++ b).
Proof.
  intros (p & q & ->). exists p, (q ++ b). rewrite !append_assoc. reflexivity.
Qed.

Lemma occurs_in_trans x y z : occurs_in x y -> occurs_in y z -> occurs_in x z.
Proof.
  intros (p & q & ->) (p' & q' & ->).
  exists (p' ++ p), (q ++ q'). rewrite !append_assoc. reflexivity.
Qed.

Lemma sections_fold l :
  forall acc,
    fold_left (fun sections sc => sections ++ section_of sc) l acc
    = acc ++ fold_left (fun sections sc => sections ++ section_of sc) l "".
Proof.
  induction l as [|x l IH]; intros acc; simpl.
  - rewrite append_empty_r. reflexivity.
  - rewrite IH, (IH (section_of x)), append_assoc. reflexivity.
Qed.

Lemma sections_app l1 l2 :
  fold_left (fun sections sc => sections ++ section_of sc) (l1 ++ l2)%list ""
  = fold_left (fun sections sc => sections ++ section_of sc) l1 ""
    ++ fold_left (fun sections sc => sections ++ section_of sc) l2 "".
Proof. rewrite fold_left_app. apply sections_fold. Qed.

Lemma report_of l date :
  l <> [] ->
  create_html_report l date
  = Ok (html_document (html_header date)
          (fold_left (fun sections sc => sections ++ section_of sc) l "")).
Proof. destruct l; [contradiction|reflexivity]. Qed.

Lemma section_in_sections sc l :
  In sc l ->
  occurs_in (section_of sc)
            (fold_left (fun sections x => sections ++ section_of x) l "").
Proof.
  induction l as [|x l IH]; intros I; [destruct I|].
  simpl. rewrite sections_fold. destruct I as [->|I].
  - apply occurs_in_app_l. apply occurs_in_refl.
  - apply occurs_in_app_r. apply IH. exact I.
Qed.

Lemma sections_in_document header sections :
  occurs_in sections (html_document header sections).
Proof.
  unfold html_document.
  do 2 apply occurs_in_app_r. apply occurs_in_app_l.
  do 2 apply occurs_in_app_r. apply occurs_in_app_l. apply occurs_in_refl.
Qed.

End HtmlFacts.

(** X17.  [create_html_report] refuses the empty list; the report of two
    lists put end to end has, under the one header, the sections of the
    first list followed by the sections of the second. *)
Theorem create_html_report_sections :
  (forall date, Html.create_html_report [] date = Raise AssertionError)
  /\ (forall (l1 l2 : list Scientist.WikiScientist) (date : string),
         l1 <> [] -> l2 <> [] ->
         exists s1 s2,
           Html.create_html_report l1 date
           = Ok (Html.html_document (Html.html_header date) s1)
           /\ Html.create_html_report l2 date
              = Ok (Html.html_document (Html.html_header date) s2)
           /\ Html.create_html_report (l1 ++ l2) date
              = Ok (Html.html_document (Html.html_header date) (s1 ++ s2))).
Proof.
  split; [reflexivity|].
  intros l1 l2 date N1 N2.
  do 2 eexists. rewrite !report_of; auto.
  - rewrite sections_app. auto.
  - destruct l1; [contradiction|discriminate].
Qed.

Lemma create_html_report_sections_witness :
  exists s1 s2,
    Html.create_html_report [Demo.turing] "Nov 04, 2026"
    = Ok (Html.html_document (Html.html_header "Nov 04, 2026") s1)
    /\ Html.create_html_report [Demo.newton] "Nov 04, 2026"
       = Ok (Html.html_document (Html.html_header "Nov 04, 2026") s2)
    /\ Html.create_html_report ([Demo.turing] ++ [Demo.newton]) "Nov 04, 2026"
       = Ok (Html.html_document (Html.html_header "Nov 04, 2026") (s1 ++ s2)).
Proof.
  apply (proj2 create_html_report_sections); discriminate.
Defined.

(** X18.  Every record of the list has its section in the report, and the
    name, the summary and the date of preparation stand in it as they were
    given: nothing is escaped or trimmed. *)
Theorem create_html_report_verbatim :
  forall (l : list Scientist.WikiScientist) (date html : string)
         (sc : Scientist.WikiScientist),
    Html.create_html_report l date = Ok html ->
    In sc l ->
    Trace.occurs_in (Html.section_of sc) html
    /\ Trace.occurs_in ("<h3>" ++ Scientist.name sc ++ "</h3>") html
    /\ Trace.occurs_in
         ("<li><b>Summary: </b>" ++ Scientist.summary sc ++ "</li></ol>") html
    /\ Trace.occurs_in ("Prepared on " ++ date ++ "</h4>") html.
Proof.
  intros l date html sc H I.
  assert (N : l <> []) by (destruct l; [destruct I|discriminate]).
  rewrite (report_of l date N) in H. injection H as <-.
  assert (S : Trace.occurs_in (Html.section_of sc)
                (Html.html_document (Html.html_header date)
                   (fold_left (fun sections x => sections ++ Html.section_of x)
                      l "")))
    by (eapply occurs_in_trans;
        [apply section_in_sections; exact I | apply sections_in_document]).
  split; [exact S|]. split; [|split].
  - eapply occurs_in_trans; [|exact S].
    unfold Html.section_of, Html.html_section.
    apply occurs_in_app_r, occurs_in_app_l, occurs_in_refl.
  - eapply occurs_in_trans; [|exact S].
    unfold Html.section_of, Html.html_section.
    do 5 apply occurs_in_app_r. apply occurs_in_refl.
  - unfold Html.html_document, Html.html_header.
    do 2 apply occurs_in_app_r. apply occurs_in_app_l.
    apply occurs_in_app_r. apply occurs_in_app_l. apply occurs_in_app_r.
    exists ("<h4 align=" ++ Robot.dq ++ "center" ++ Robot.dq ++ ">"), "".
    rewrite append_empty_r. reflexivity.
Qed.

Lemma create_html_report_verbatim_witness :
  Trace.occurs_in (Html.section_of Demo.newton)
    (Html.html_document (Html.html_header "Nov 04, 2026")
       (Html.section_of Demo.turing ++ Html.section_of Demo.newton))
  /\ Trace.occurs_in ("<h3>" ++ Scientist.name Demo.newton ++ "</h3>")
       (Html.html_document (Html.html_header "Nov 04, 2026")
          (Html.section_of Demo.turing ++ Html.section_of Demo.newton))
  /\ Trace.occurs_in
       ("<li><b>Summary: </b>" ++ Scientist.summary Demo.newton ++ "</li></ol>")
       (Html.html_document (Html.html_header "Nov 04, 2026")
          (Html.section_of Demo.turing ++ Html.section_of Demo.newton))
  /\ Trace.occurs_in ("Prepared on " ++ "Nov 04, 2026" ++ "</h4>")
       (Html.html_document (Html.html_header "Nov 04, 2026")
          (Html.section_of Demo.turing ++ Html.section_of Demo.newton)).
Proof.
  apply (create_html_report_verbatim [Demo.turing; Demo.newton]
           "Nov 04, 2026" _ Demo.newton).
  - reflexivity.
  - right. left. reflexivity.
Defined.

(* ------------------------------------------------------------------ *)
(** ** Dialogs *)

Section DialogFacts.
Import Dialog.

Lemma when_given_cases x f :
  (exists v, x = Some v /\ v <> "" /\ when_given x f = [f v])
  \/ ((x = None \/ x = Some "") /\ when_given x f = []).
Proof.
  destruct x as [[|c v]|].
  - right. split; [right|]; reflexivity.
  - left. exists (String c v). repeat split. discriminate.
  - right. split; [left|]; reflexivity.
Qed.

Lemma show_dialog_calls body title header file button :
  body <> [] ->
  exists heading attached submit,
    show_dialog body title header file button
    = Ok (heading ++ map AddText body ++ attached ++ submit
          ++ [RunDialog title])%list
    /\ ((exists h, header = Some h /\ h <> "" /\ heading = [AddHeading h])
        \/ ((header = None \/ header = Some "") /\ heading = []))
    /\ ((exists f, file = Some f /\ f <> "" /\ attached = [AddFile f])
        \/ ((file = None \/ file = Some "") /\ attached = []))
    /\ ((exists b, button = Some b /\ b <> ""
                   /\ submit = [AddSubmitButtons b])
        \/ ((button = None \/ button = Some "") /\ submit = [])).
Proof.
  intros N. destruct body as [|b body]; [contradiction|].
  exists (when_given header AddHeading), (when_given file AddFile),
    (when_given button AddSubmitButtons).
  split; [reflexivity|]. repeat split; apply when_given_cases.
Qed.

Lemma show_dialog_empty_text body title header file button :
  show_dialog body title (Some "") file button
  = show_dialog body title None file button
  /\ show_dialog body title header (Some "") button
     = show_dialog body title header None button
  /\ show_dialog body title header file (Some "")
     = show_dialog body title header file None.
Proof. repeat split. Qed.

End DialogFacts.

(** X19.  [show_dialog] refuses an empty body.  Otherwise the calls it
    makes on the assistant are exactly these, in this order: [add_heading]
    with the header when the header is a text that is not empty, [add_text]
    for each text of the body, [add_file] with the file when it is a text
    that is not empty, [add_submit_buttons] with the button when it is a
    text that is not empty, and [run_dialog] with the title, once and last.
    A header, file or button that is [None] or the empty text adds no call,
    and the empty text behaves as [None]. *)
Theorem show_dialog_structure :
  (forall title header file button,
      Dialog.show_dialog [] title header file button = Raise AssertionError)
  /\ (forall body title header file button,
         body <> [] ->
         exists heading attached submit,
           Dialog.show_dialog body title header file button
           = Ok (heading ++ map Dialog.AddText body ++ attached ++ submit
                 ++ [Dialog.RunDialog title])%list
           /\ ((exists h, header = Some h /\ h <> ""
                          /\ heading = [Dialog.AddHeading h])
               \/ ((header = None \/ header = Some "") /\ heading = []))
           /\ ((exists f, file = Some f /\ f <> ""
                          /\ attached = [Dialog.AddFile f])
               \/ ((file = None \/ file = Some "") /\ attached = []))
           /\ ((exists b, button = Some b /\ b <> ""
                          /\ submit = [Dialog.AddSubmitButtons b])
               \/ ((button = None \/ button = Some "") /\ submit = [])))
  /\ (forall body title header file button,
         Dialog.show_dialog body title (Some "") file button
         = Dialog.show_dialog body title None file button
         /\ Dialog.show_dialog body title header (Some "") button
            = Dialog.show_dialog body title header None button
         /\ Dialog.show_dialog body title header file (Some "")
            = Dialog.show_dialog body title header file None).
Proof.
  split; [reflexivity|]. split.
  - exact show_dialog_calls.
  - exact show_dialog_empty_text.
Qed.

Lemma show_dialog_structure_witness :
  Dialog.show_dialog ["I'm already done!"; "Below you can find a link."]
                     (Some "Robot") (Some "Robot") (Some "") (Some "Done")
  = Ok [Dialog.AddHeading "Robot";
        Dialog.AddText "I'm already done!";
        Dialog.AddText "Below you can find a link.";
        Dialog.AddSubmitButtons "Done";
        Dialog.RunDialog (Some "Robot")].
Proof.
  destruct (proj1 (proj2 show_dialog_structure)
              ["I'm already done!"; "Below you can find a link."]
              (Some "Robot") (Some "Robot") (Some "") (Some "Done"))
    as (heading & attached & submit & E & H & F & B); [discriminate|].
  rewrite E.
  destruct H as [(h & Hh & _ & ->)|([Hh|Hh] & _)]; [|discriminate Hh ..].
  destruct F as [(f & Hf & Nf & _)|(_ & ->)];
    [injection Hf as <-; contradiction Nf; reflexivity|].
  destruct B as [(b & Hb & _ & ->)|([Hb|Hb] & _)]; [|discriminate Hb ..].
  injection Hh as <-. injection Hb as <-. reflexivity.
Defined.

Section StartFacts.
Import Robot Trace.

Lemma join_names sep l a : In a l -> occurs_in a (join sep l).
Proof.
  induction l as [|x l IH]; intros I; [destruct I|].
  destruct l as [|y l].
  - destruct I as [->|[]]. apply occurs_in_refl.
  - change (join sep (x :: y :: l)) with (x ++ sep ++ join sep (y :: l)).
    destruct I as [->|I].
    + apply occurs_in_app_l, occurs_in_refl.
    + do 2 apply occurs_in_app_r. apply IH. exact I.
Qed.

Lemma start_dialog_names articles s :
  articles <> [] ->
  exists lead,
    show_dialog_start articles s
    = (Ok tt,
       mkstate (name s) (url s) (data s) (br s)
         (calls s
          ++ [ShowDialog (lead ++ [("These are the scientists I'm going "
                                     ++ "to search today: "
                                     ++ join ", " articles)%string;
                                    ("When you're ready, simply click the "
                                     ++ "start button to begin.")%string])%list
                (Some (name s)) (Some (name s)) None (Some "Start")]))
    /\ List.length lead = 3%nat.
Proof.
  intros N. destruct articles as [|a rest]; [contradiction|].
  eexists [_; _; _]. split; reflexivity.
Qed.

End StartFacts.

(** X20.  For a non-empty list of articles the announcement is one dialog
    of five texts under the robot's name, with a Start button and no file,
    and each of the articles is named in its fourth text. *)
Theorem show_dialog_start_names :
  forall (articles : list string) (s : Robot.state),
    articles <> [] ->
    exists body fourth,
      Robot.show_dialog_start articles s
      = (Ok tt,
         Robot.mkstate (Robot.name s) (Robot.url s) (Robot.data s) (Robot.br s)
           (Robot.calls s
            ++ [Robot.ShowDialog body (Some (Robot.name s))
                  (Some (Robot.name s)) None (Some "Start")]))
      /\ List.length body = 5%nat
      /\ nth_error body 3 = Some fourth
      /\ (forall a, In a articles -> Trace.occurs_in a fourth).
Proof.
  intros articles s N.
  destruct (start_dialog_names articles s N) as ([|l1 [|l2 [|l3 [|l4 lead]]]] & E & L);
    try discriminate.
  eexists. eexists. split; [exact E|]. split; [reflexivity|].
  split; [reflexivity|].
  intros a I. do 2 apply occurs_in_app_r. apply join_names. exact I.
Qed.

Lemma show_dialog_start_names_witness :
  exists body fourth,
    Robot.show_dialog_start ["Albert Einstein"; "Marie Curie"] Demo.robot
    = (Ok tt,
       Robot.mkstate (Robot.name Demo.robot) (Robot.url Demo.robot)
         (Robot.data Demo.robot) (Robot.br Demo.robot)
         (Robot.calls Demo.robot
          ++ [Robot.ShowDialog body (Some (Robot.name Demo.robot))
                (Some (Robot.name Demo.robot)) None (Some "Start")]))
    /\ List.length body = 5%nat
    /\ nth_error body 3 = Some fourth
    /\ (forall a, In a ["Albert Einstein"; "Marie Curie"] ->
                  Trace.occurs_in a fourth).
Proof.
  apply show_dialog_start_names. discriminate.
Defined.

(* ------------------------------------------------------------------ *)
(** ** The locators of the biography table *)

Section LocatorFacts.

Lemma append_length a b :
  String.length (a ++ b) = (String.length a + String.length b)%nat.
Proof. induction a; simpl; congruence. Qed.

Lemma append_cancel_l p x y : p ++ x = p ++ y -> x = y.
Proof. induction p; simpl; intros H; [exact H|]. injection H as H. auto. Qed.

Lemma append_cancel_r t : forall x y, x ++ t = y ++ t -> x = y.
Proof.
  induction x as [|a x IH]; intros [|b y] H; simpl in H.
  - reflexivity.
  - apply (f_equal String.length) in H. simpl in H.
    rewrite append_length in H. lia.
  - apply (f_equal String.length) in H. simpl in H.
    rewrite append_length in H. lia.
  - injection H as -> H. f_equal. apply IH. exact H.
Qed.

Lemma biography_lookup_parts header :
  Robot._biography_lookup header
  = ("xpath://table[@class=" ++ Robot.dq ++ "infobox biography vcard"
     ++ Robot.dq ++ "]" ++ "//th[contains(text(), " ++ Robot.dq)
    ++ header ++ (Robot.dq ++ ")]" ++ "//../td/span").
Proof. reflexivity. Qed.

Lemma biography_lookup_injective h1 h2 :
  Robot._biography_lookup h1 = Robot._biography_lookup h2 -> h1 = h2.
Proof.
  rewrite !biography_lookup_parts. intros H.
  apply append_cancel_l in H. apply append_cancel_r in H. exact H.
Qed.

End LocatorFacts.

(** X21.  Two headers have the same locator in the biography table only
    if they are the same header, and the header stands in the locator as
    it is given: the rows of "Born" and "Died" are looked up apart. *)
Theorem biography_lookup_distinct :
  forall h1 h2 : string,
    (Robot._biography_lookup h1 = Robot._biography_lookup h2 <-> h1 = h2)
    /\ Trace.occurs_in h1 (Robot._biography_lookup h1).
Proof.
  intros h1 h2. split.
  - split; [apply biography_lookup_injective | intros ->; reflexivity].
  - rewrite biography_lookup_parts. eexists. eexists. reflexivity.
Qed.

(* ------------------------------------------------------------------ *)
(** ** The search, and what an article depends on *)

Section SearchFacts.
Import Robot Trace Reads.
Variable web : Browser.Web.

Lemma search_article_result article s :
  search_article web article s =
  match br s with
  | [] =>
      (Raise NoSuchWindowException,
       mkstate (name s) (url s) (data s) [] (calls s ++ [GoTo (url s)]))
  | w :: rest =>
      let home := Browser.load web (url s) in
      let typed := [("id:searchInput", article)] in
      match Browser.find home "id:searchInput" with
      | None =>
          (Raise (ElementNotFound "id:searchInput"),
           mkstate (name s) (url s) (data s)
             (Browser.mkwindow (Browser.id w) home [] :: rest)
             (calls s ++ [GoTo (url s); InputText "id:searchInput" article]))
      | Some _ =>
          match Browser.find home "id:search-form >> tag:button" with
          | None =>
              (Raise (ElementNotFound "id:search-form >> tag:button"),
               mkstate (name s) (url s) (data s)
                 (Browser.mkwindow (Browser.id w) home typed :: rest)
                 (calls s ++ [GoTo (url s); InputText "id:searchInput" article;
                              ClickButton "id:search-form >> tag:button"]))
          | Some _ =>
              (Ok tt,
               mkstate (name s) (url s) (data s)
                 (Browser.mkwindow (Browser.id w)
                    (Browser.click web home "id:search-form >> tag:button" typed)
                    [] :: rest)
                 (calls s ++ [GoTo (url s); InputText "id:searchInput" article;
                              ClickButton "id:search-form >> tag:button"]))
          end
      end
  end.
Proof.
  destruct s as [n u d b c].
  unfold search_article, bind, get, on_br, Browser.go_to, Browser.input_text,
    Browser.click_button, Browser.on_element, Browser.on_active. simpl.
  destruct b as [|w rest]; [reflexivity|]. simpl.
  destruct (Browser.find (Browser.load web u) "id:searchInput"); simpl;
    [|rewrite <- app_assoc; reflexivity].
  destruct (Browser.find (Browser.load web u) "id:search-form >> tag:button");
    simpl; rewrite <- !app_assoc; reflexivity.
Qed.

Lemma uniform_ret {A : Type} (a : A) : uniform (ret a).
Proof. intros s s' V. split; [reflexivity|exact V]. Qed.

Lemma uniform_raise {A : Type} e : uniform (@raise A e).
Proof. intros s s' V. split; [reflexivity|exact V]. Qed.

Lemma uniform_lift {A : Type} (r : result A) : uniform (lift r).
Proof. intros s s' V. split; [reflexivity|exact V]. Qed.

Lemma uniform_bind {A B : Type} (m : M A) (k : A -> M B) :
  uniform m -> (forall a, uniform (k a)) -> uniform (bind m k).
Proof.
  intros Hm Hk s s' V. unfold bind. destruct (Hm s s' V) as [E V'].
  destruct (m s) as [[a|e] s1], (m s') as [[a'|e'] s1']; simpl in E, V';
    try discriminate.
  - injection E as <-. apply Hk. exact V'.
  - injection E as <-. split; [reflexivity|exact V'].
Qed.

Lemma uniform_on_active {A : Type} e
      (f : Browser.window -> result A * Browser.window) :
  (forall w w',
      Browser.shown w = Browser.shown w' -> Browser.typed w = Browser.typed w' ->
      fst (f w) = fst (f w')
      /\ Browser.shown (snd (f w)) = Browser.shown (snd (f w'))
      /\ Browser.typed (snd (f w)) = Browser.typed (snd (f w'))) ->
  uniform (on_br e (Browser.on_active f)).
Proof.
  intros H [n u d b c] [n' u' d' b' c'] [U V]. simpl in U, V.
  unfold on_br, Browser.on_active, same_view. simpl.
  destruct b as [|w b], b' as [|w' b']; simpl in V; try discriminate.
  - repeat split. exact U.
  - injection V as S T. destruct (H w w' S T) as (E & S' & T').
    destruct (f w) as [r x], (f w') as [r' x']. simpl in *.
    repeat split; [exact E|exact U|]. rewrite S', T'. reflexivity.
Qed.

Lemma uniform_on_element {A : Type} e locator
      (f : Browser.window -> Browser.element -> result A * Browser.window) :
  (forall w w' x,
      Browser.shown w = Browser.shown w' -> Browser.typed w = Browser.typed w' ->
      fst (f w x) = fst (f w' x)
      /\ Browser.shown (snd (f w x)) = Browser.shown (snd (f w' x))
      /\ Browser.typed (snd (f w x)) = Browser.typed (snd (f w' x))) ->
  uniform (on_br e (Browser.on_element locator f)).
Proof.
  intros H. apply uniform_on_active. intros w w' S T. rewrite <- S.
  destruct (Browser.find (Browser.shown w) locator) as [x|].
  - apply H; assumption.
  - simpl. auto.
Qed.

Lemma uniform_is_at_article article : uniform (is_at_article article).
Proof.
  intros s s' [U V]. rewrite !is_at_article_result.
  replace (get_domain (url s')) with (get_domain (url s)) by congruence.
  destruct (get_domain (url s)); [|split; [reflexivity|split; assumption]].
  revert V.
  destruct (br s) as [|w b], (br s') as [|w' b']; simpl; intros V;
    try discriminate.
  - split; [reflexivity|]. split; [exact U|reflexivity].
  - injection V as S T. rewrite <- S.
    destruct (get_domain (Browser.location (Browser.shown w)));
      [destruct (String.eqb _ _)|];
      (split; [reflexivity|]; split; simpl;
       [exact U|rewrite S, T; reflexivity]).
Qed.

Lemma uniform_extract article : uniform (extract_from_article article).
Proof.
  unfold extract_from_article, _get_date_of_birth, _get_date_of_death,
    _get_biography_date, _get_first_paragraph,
    Browser.get_element_attribute, Browser.get_text.
  repeat first
    [ apply uniform_ret | apply uniform_raise | apply uniform_lift
    | apply uniform_on_element; intros; simpl; auto
    | apply uniform_bind; [|intros]
    | match goal with
      | |- uniform (match ?x with _ => _ end) => destruct x
      end ].
Qed.

Lemma uniform_finish article : uniform (finish web article).
Proof.
  unfold finish, Browser.input_text, Browser.click_button.
  apply uniform_bind;
    [apply uniform_on_element; intros w w' x S T; simpl; rewrite T; auto|intros].
  apply uniform_bind;
    [apply uniform_on_element; intros w w' x S T; simpl; rewrite S, T; auto
    |intros].
  apply uniform_bind; [apply uniform_is_at_article|intros].
  destruct (negb a1); [apply uniform_raise|apply uniform_extract].
Qed.

(** [get_content] reaches the search box on the home page, whatever was
    shown before. *)
Lemma get_content_home article s :
  exists s_c i rest,
    get_content web article s = finish web article s_c
    /\ url s_c = url s
    /\ br s_c = Browser.mkwindow i (Browser.load web (url s)) [] :: rest.
Proof.
  destruct s as [n u d b c].
  unfold get_content, finish, search_article.
  rewrite (bind_ok _ _ _ _ _ (is_browser_open_result _)). simpl.
  destruct b as [|w b]; simpl negb; cbv iota.
  - rewrite (bind_ok _ _ _ _ _ (open_browser_result web _)). simpl.
    rewrite bind_assoc. erewrite bind_ok by reflexivity. simpl.
    rewrite bind_assoc. erewrite bind_ok by reflexivity.
    rewrite bind_assoc.
    do 3 eexists. split; [reflexivity|]. simpl. split; reflexivity.
  - erewrite bind_ok by reflexivity.
    rewrite bind_assoc. erewrite bind_ok by reflexivity. simpl.
    rewrite bind_assoc. erewrite bind_ok by reflexivity.
    rewrite bind_assoc.
    do 3 eexists. split; [reflexivity|]. simpl. split; reflexivity.
Qed.

Lemma get_content_same article s s' :
  url s = url s' ->
  fst (get_content web article s) = fst (get_content web article s').
Proof.
  intros U.
  destruct (get_content_home article s) as (c & i & rest & -> & Uc & Bc).
  destruct (get_content_home article s') as (c' & i' & rest' & -> & Uc' & Bc').
  apply uniform_finish. split; [congruence|].
  rewrite Bc, Bc', U. reflexivity.
Qed.

End SearchFacts.

(** X22.  [search_article] needs a browser: with none open it raises after
    the attempt to load the home page, and types and clicks nothing.  With
    a browser it goes through exactly when the home page has the search
    box and the search button, and the active browser then shows the page
    the click leads to from the home page with the article typed in; its
    number and the other browsers stay as they were. *)
Theorem search_article_outcome :
  forall (web : Browser.Web) (article : string) (s : Robot.state),
    (Robot.br s = [] ->
     Robot.search_article web article s
     = (Raise NoSuchWindowException,
        Robot.mkstate (Robot.name s) (Robot.url s) (Robot.data s) []
          (Robot.calls s ++ [Robot.GoTo (Robot.url s)])))
    /\ (forall w rest,
           Robot.br s = w :: rest ->
           (fst (Robot.search_article web article s) = Ok tt <->
            Browser.find (Browser.load web (Robot.url s)) "id:searchInput"
            <> None
            /\ Browser.find (Browser.load web (Robot.url s))
                 "id:search-form >> tag:button" <> None)
           /\ (fst (Robot.search_article web article s) = Ok tt ->
               Robot.br (snd (Robot.search_article web article s))
               = Browser.mkwindow (Browser.id w)
                   (Browser.click web (Browser.load web (Robot.url s))
                      "id:search-form >> tag:button"
                      [("id:searchInput", article)])
                   [] :: rest)).
Proof.
  intros web article s. rewrite search_article_result. split.
  - intros ->. reflexivity.
  - intros w rest ->. cbv zeta.
    destruct (Browser.find (Browser.load web (Robot.url s)) "id:searchInput").
    + destruct (Browser.find (Browser.load web (Robot.url s))
                  "id:search-form >> tag:button"); simpl.
      * repeat split; discriminate.
      * split; [split; [discriminate|intros [_ N]; contradiction]|discriminate].
    + simpl.
      split; [split; [discriminate|intros [N _]; contradiction]|discriminate].
Qed.

Lemma search_article_outcome_witness :
  Robot.search_article Demo.web "Alan Turing" Demo.robot
  = (Raise NoSuchWindowException,
     Robot.mkstate (Robot.name Demo.robot) (Robot.url Demo.robot)
       (Robot.data Demo.robot) []
       (Robot.calls Demo.robot ++ [Robot.GoTo (Robot.url Demo.robot)])).
Proof.
  apply (proj1 (search_article_outcome Demo.web "Alan Turing" Demo.robot)).
  reflexivity.
Defined.

(** X23.  What [get_content] returns or raises for an article depends on
    the web and on the robot's URL only: not on the page shown before, on
    the browsers already open, nor on the records already held. *)
Theorem get_content_history_free :
  forall (web : Browser.Web) (article : string) (s s' : Robot.state),
    Robot.url s = Robot.url s' ->
    fst (Robot.get_content web article s)
    = fst (Robot.get_content web article s').
Proof. exact get_content_same. Qed.

Lemma get_content_history_free_witness :
  fst (Robot.get_content Demo.web "Isaac Newton" Demo.after_nobody)
  = fst (Robot.get_content Demo.web "Isaac Newton" Demo.robot).
Proof.
  apply get_content_history_free. reflexivity.
Defined.

(* ------------------------------------------------------------------ *)
(** ** What [run] lets out *)

Section OutcomeFacts.
Import Robot Trace.
Variable web : Browser.Web.

Lemma firstn_prefix {A : Type} (pre post : list A) :
  firstn (List.length pre) (pre ++ post) = pre.
Proof.
  induction pre as [|x pre IH]; simpl; [reflexivity|]. rewrite IH. reflexivity.
Qed.

Lemma run_outcome articles output_path s :
  articles <> [] ->
  fst (run web articles output_path s) = Ok tt
  /\ br (snd (run web articles output_path s)) = []
  /\ exists recs ev evs,
      data (snd (run web articles output_path s)) = (data s ++ recs)%list
      /\ map Scientist.name recs = firstn (List.length recs) articles
      /\ announces ev
      /\ forallb browsing evs = true
      /\ ((List.length recs = List.length articles
           /\ calls (snd (run web articles output_path s))
              = (calls s ++ ev :: evs
                 ++ [CloseAllBrowsers;
                     HtmlToPdf (data s ++ recs) (Browser.today web) output_path;
                     completed_dialog s output_path])%list)
          \/ ((List.length recs < List.length articles)%nat
              /\ calls (snd (run web articles output_path s))
                 = (calls s ++ ev :: evs
                    ++ [CloseAllBrowsers; error_dialog s])%list)).
Proof.
  intros N.
  destruct (instructions_result articles s N) as (ev & A & I).
  destruct (for_articles_later web articles (snd (instructions articles s)))
    as [(N1 & U1 & evs & C1 & F1) _].
  destruct (for_articles web articles (snd (instructions articles s)))
    as [[[]|e] s1] eqn:L; rewrite I in *; simpl in N1, U1, C1.
  - destruct (run_success web articles output_path s s1 N) as (recs & Names & R);
      [rewrite I; exact L|].
    assert (Len : List.length recs = List.length articles)
      by (rewrite <- Names; symmetry; apply length_map).
    rewrite R. simpl. repeat split.
    exists recs, ev, evs. split; [reflexivity|].
    split; [rewrite Len, firstn_all; exact Names|].
    split; [exact A|]. split; [exact F1|].
    left. split; [exact Len|].
    rewrite C1, <- !app_assoc. reflexivity.
  - destruct (first_failure web _ _ _ _ L)
      as (pre & article & post & s2 & recs & E & P & G & D & Names).
    rewrite (run_result web _ output_path s N), I, L, failure_path. simpl.
    simpl in D.
    assert (Len : List.length recs = List.length pre)
      by (rewrite <- Names; symmetry; apply length_map).
    repeat split.
    exists recs, ev, evs. split; [exact D|].
    split; [rewrite Len, E, firstn_prefix; exact Names|].
    split; [exact A|]. split; [exact F1|].
    right. split; [rewrite Len, E, length_app; simpl; lia|].
    unfold error_dialog. rewrite C1, N1, <- !app_assoc. reflexivity.
Qed.

Lemma run_empty output_path s :
  run web [] output_path s = (Raise AssertionError, s).
Proof. reflexivity. Qed.

End OutcomeFacts.

(** X24.  [run] lets an exception out for the empty list of articles only:
    it then raises [AssertionError] at once, with no call made and the
    browsers left as they are; for every other list it returns normally,
    whatever went wrong on the way. *)
Theorem run_raises_only_on_empty :
  forall (web : Browser.Web) (articles : list string) (output_path : string)
         (s : Robot.state),
    ((exists e, fst (Robot.run web articles output_path s) = Raise e)
     <-> articles = [])
    /\ Robot.run web [] output_path s = (Raise AssertionError, s).
Proof.
  intros web articles output_path s. split; [|reflexivity]. split.
  - intros [e E]. destruct articles as [|a l]; [reflexivity|].
    destruct (run_outcome web (a :: l) output_path s) as [R _];
      [discriminate|]. rewrite R in E. discriminate.
  - intros ->. exists AssertionError. reflexivity.
Qed.

(** X25.  The program of [main.py], on any web: it returns normally with
    no browser open, and the records it leaves are at most four, those of
    the first names of its list, in order and under these names.  They are
    all four exactly when a report was written at all, and exactly when the
    calls end with the report of these very records to [report.pdf]
    followed by the final dialog. *)
Theorem main_outcome :
  forall web : Browser.Web,
    fst (Main.main web) = Ok tt
    /\ Robot.br (snd (Main.main web)) = []
    /\ (List.length (Robot.data (snd (Main.main web))) <= 4)%nat
    /\ map Scientist.name (Robot.data (snd (Main.main web)))
       = firstn (List.length (Robot.data (snd (Main.main web))))
                Main.SCIENTISTS
    /\ (List.length (Robot.data (snd (Main.main web))) = 4%nat <->
        exists d t p,
          In (Robot.HtmlToPdf d t p) (Robot.calls (snd (Main.main web))))
    /\ (List.length (Robot.data (snd (Main.main web))) = 4%nat <->
        exists before,
          Robot.calls (snd (Main.main web))
          = (before
             ++ [Robot.HtmlToPdf (Robot.data (snd (Main.main web)))
                   (Browser.today web) "report.pdf";
                 Trace.completed_dialog
                   (Robot.__init__ "Wiki-Scientist-Robot") "report.pdf"])%list).
Proof.
  intros web. unfold Main.main.
  destruct (run_outcome web Main.SCIENTISTS "report.pdf"
              (Robot.__init__ "Wiki-Scientist-Robot"))
    as (R & B & recs & ev & evs & D & N & A & F & K); [discriminate|].
  destruct (Robot.run web Main.SCIENTISTS "report.pdf"
              (Robot.__init__ "Wiki-Scientist-Robot")) as [r final].
  cbn [fst snd] in *.
  change (Robot.data final = recs) in D. rewrite D.
  split; [exact R|]. split; [exact B|].
  assert (Quiet : forall d t p, ~ In (Robot.HtmlToPdf d t p) (ev :: evs)).
  { intros d t p [->|I]; [exact A|].
    rewrite forallb_forall in F. specialize (F _ I). discriminate F. }
  destruct K as [[Len C]|[Len C]]; simpl in C, Len; rewrite C.
  - split; [lia|]. split; [exact N|]. split; (split; [intros _|intros _; exact Len]).
    + exists recs, (Browser.today web), "report.pdf".
      right. apply in_or_app. right. right. left. reflexivity.
    + exists (ev :: evs ++ [Robot.CloseAllBrowsers])%list.
      simpl. rewrite <- app_assoc. reflexivity.
  - split; [lia|]. split; [exact N|]. split; (split; [intros Four; lia|]).
    + intros (d & t & p & I). exfalso.
      change (In (Robot.HtmlToPdf d t p)
                ((ev :: evs)
                 ++ [Robot.CloseAllBrowsers;
                     Trace.error_dialog (Robot.__init__ "Wiki-Scientist-Robot")])%list)
        in I.
      apply in_app_or in I as [I|[I|[I|[]]]];
        [exact (Quiet _ _ _ I) | discriminate I | discriminate I].
    + intros (before & E). exfalso.
      assert (X : forall (l : list Robot.event) x y,
                 (l ++ [x; y] = (l ++ [x]) ++ [y])%list)
        by (intros; rewrite <- app_assoc; reflexivity).
      rewrite app_comm_cons, !X in E.
      apply app_inj_tail in E as [_ E]. discriminate E.
Qed.
